(** * The ban registry of zhenxun_bot: [zhenxun/models/ban_console.py]

    A shallow embedding of the [BanConsole] model class and of its class
    methods, followed by the properties of the registry.

    - The table [ban_console] is a list of rows in insertion order together
      with the next value of the auto-increment key.
    - A class method is a computation of the monad [M]: it receives the
      store, and yields either a value or a raised exception, with the store
      as it stands at that point (an exception does not roll anything back).
    - [time.time()] is a reading of the clock handed to the method as [now].
      The reading is a rational number of seconds: [ban_time] and [duration]
      are integers, and the source converts with [int(...)] where an integer
      is wanted.
    - Arithmetic on the clock is exact here, while the source subtracts in
      IEEE doubles. For clock readings below 2^53 seconds, which is every
      reading [time.time()] gives, the two agree on the sign of the
      difference and on whether a whole second is left; the number of
      seconds returned is the same where the subtraction of doubles is
      exact, which [double_exact] spells out. Statements about that number
      carry it as a condition.
    - The table takes any integer and any text, while the columns are
      [IntField], [BigIntField] and [CharField(255)]. Statements that [ban]
      returns are made for values that fit the columns, [fits_columns]. *)

From Stdlib Require Import ZArith QArith Qabs Qround List String Bool Lia Lqa.
Import ListNotations.

Local Open Scope string_scope.
Local Open Scope Z_scope.

(** ** Data model *)

(** A row of [ban_console]: the fields of [class BanConsole(Model)]. *)
Record BanConsole : Type := mkBanConsole {
  id : Z;
  user_id : option string;
  group_id : option string;
  ban_level : Z;
  ban_time : Z;
  ban_reason : option string;
  duration : Z;
  operator : string
}.

(** The table. [unique_nulls_distinct] is the policy of the database for
    [unique_together = ("user_id", "group_id")] on the nullable columns:
    [true] when two NULLs never collide (SQLite, PostgreSQL, MySQL), [false]
    when NULL collides with NULL. *)
Record Store : Type := mkStore {
  rows : list BanConsole;
  next_id : Z;
  unique_nulls_distinct : bool
}.

Definition empty_store (nd : bool) : Store := mkStore [] 1 nd.

(** ** Exceptions and the monad of the class methods *)

Inductive exn : Type :=
| UserAndGroupIsNone
| IntegrityError.

Inductive outcome (A : Type) : Type :=
| Return (a : A)
| Raise (e : exn).
Arguments Return {A} a.
Arguments Raise {A} e.

Definition M (A : Type) : Type := Store -> outcome A * Store.

Definition ret {A} (a : A) : M A := fun s => (Return a, s).

Definition raise {A} (e : exn) : M A := fun s => (Raise e, s).

Definition bind {A B} (c : M A) (k : A -> M B) : M B :=
  fun s =>
    match c s with
    | (Return a, s') => k a s'
    | (Raise e, s') => (Raise e, s')
    end.

Notation "x <- step ;; rest" := (bind step (fun x => rest))
  (at level 61, step at next level, right associativity).
Notation "step ;; rest" := (bind step (fun _ => rest))
  (at level 61, right associativity).

(** ** Python values *)

(** Truth value of a [str | None]: [None] and the empty string are false. *)
Definition truthy (x : option string) : bool :=
  match x with
  | Some s => negb (String.eqb s "")
  | None => false
  end.

(** [int(q)]: truncation toward zero. *)
Definition py_int (q : Q) : Z := Z.quot (Qnum q) (Zpos (Qden q)).

(** [x < y] on clock values. *)
Definition Qltb (x y : Q) : bool := negb (Qle_bool y x).

(** ** The persistent store

    [DataAccess.safe_get_or_none], [Model.create] and [Model.delete] belong
    to [zhenxun/services] and to the ORM; they are described here by their
    contract on the table. *)

(** A keyword of a query: [field=value] or [field__isnull=True]. *)
Inductive cond : Type :=
| Is (v : string)
| IsNull.

Record Filter : Type := mkFilter {
  f_user_id : cond;
  f_group_id : cond
}.

(** [field=value] with [value] a [str | None]: [None] selects NULL. *)
Definition as_cond (x : option string) : cond :=
  match x with
  | Some s => Is s
  | None => IsNull
  end.

Definition holds (c : cond) (x : option string) : bool :=
  match c, x with
  | Is v, Some s => String.eqb s v
  | IsNull, None => true
  | _, _ => false
  end.

Definition matches (f : Filter) (r : BanConsole) : bool :=
  holds (f_user_id f) (user_id r) && holds (f_group_id f) (group_id r).

(** Modelled from the spec: [DataAccess.safe_get_or_none], the read-through
    point lookup [getOne(filter) -> Record?] of the store contract. It yields
    the first row that satisfies the filter, [None] when there is none, and
    never raises. The cache in front of the table is invalidated on every
    create and delete, so a read observes the table itself. *)
Definition safe_get_or_none (f : Filter) : M (option BanConsole) :=
  fun s => (Return (find (matches f) (rows s)), s).

(** Modelled from the spec: [safe_get_or_none(id=...)], lookup by primary
    key. *)
Definition safe_get_or_none_id (i : Z) : M (option BanConsole) :=
  fun s => (Return (find (fun r => id r =? i) (rows s)), s).

(** Modelled from the spec: [Model.delete], [delete(record) -> void]: the
    row whose primary key is the record's leaves the table. *)
Definition delete_rows (i : Z) (l : list BanConsole) : list BanConsole :=
  filter (fun r => negb (id r =? i)) l.

Definition delete (r : BanConsole) : M unit :=
  fun s =>
    (Return tt,
     mkStore (delete_rows (id r) (rows s)) (next_id s)
             (unique_nulls_distinct s)).

Definition opt_eqb (x y : option string) : bool :=
  match x, y with
  | Some a, Some b => String.eqb a b
  | None, None => true
  | _, _ => false
  end.

(** Two rows collide on [unique_together = ("user_id", "group_id")]. *)
Definition collide (nd : bool) (a b : BanConsole) : bool :=
  opt_eqb (user_id a) (user_id b) && opt_eqb (group_id a) (group_id b)
  && (negb nd
      || match user_id a, group_id a with
         | Some _, Some _ => true
         | _, _ => false
         end).

(** Modelled from the spec: [Model.create], [create(fields) -> Record] under
    the uniqueness constraint on (user_id, group_id): the new row takes the
    next primary key and goes to the end of the table; a collision is a
    storage error and leaves the table as it was. *)
Definition create (u g : option string) (level time : Z)
    (reason : option string) (dur : Z) (op : string) : M BanConsole :=
  fun s =>
    let r := mkBanConsole (next_id s) u g level time reason dur op in
    if existsb (collide (unique_nulls_distinct s) r) (rows s)
    then (Raise IntegrityError, s)
    else (Return r,
          mkStore (rows s ++ [r]) (next_id s + 1) (unique_nulls_distinct s)).

(** ** The class methods *)

Definition is_Some {A} (x : option A) : bool :=
  match x with
  | Some _ => true
  | None => false
  end.

Definition _get_data (user_id group_id : option string)
  : M (option BanConsole) :=
  if negb (truthy user_id) && negb (truthy group_id)
  then raise UserAndGroupIsNone
  else
    if truthy user_id
    then
      if truthy group_id
      then safe_get_or_none (mkFilter (as_cond user_id) (as_cond group_id))
      else safe_get_or_none (mkFilter (as_cond user_id) IsNull)
    else safe_get_or_none (mkFilter (Is "") (as_cond group_id)).

Definition check_ban_level (user_id group_id : option string) (level : Z)
  : M bool :=
  user <- _get_data user_id group_id ;;
  match user with
  | Some user => ret (ban_level user <=? level)
  | None => ret false
  end.

Definition check_ban_time (now : Q) (user_id group_id : option string)
  : M Z :=
  user <- _get_data user_id group_id ;;
  user <- (if negb (is_Some user) && truthy user_id
           then _get_data user_id None
           else ret user) ;;
  match user with
  | Some user =>
      if duration user =? -1
      then ret (-1)
      else
        let _time := (now - inject_Z (ban_time user + duration user))%Q in
        if Qltb _time 0
        then ret (py_int (Qabs _time))
        else delete user ;; ret 0
  | None => ret 0
  end.

Definition unban (user_id group_id : option string) : M bool :=
  user <- _get_data user_id group_id ;;
  match user with
  | Some user => delete user ;; ret true
  | None => ret false
  end.

Definition is_ban (now : Q) (user_id group_id : option string) : M bool :=
  t <- check_ban_time now user_id group_id ;;
  if negb (t =? 0)
  then ret true
  else unban user_id group_id ;; ret false.

(** [operator or 0], as the text column stores it. *)
Definition operator_or_0 (operator : option string) : string :=
  match operator with
  | Some s => if String.eqb s "" then "0" else s
  | None => "0"
  end.

Definition ban (now : Q) (user_id group_id : option string) (ban_level : Z)
    (reason : option string) (duration : Z) (operator : option string)
  : M unit :=
  target <- _get_data user_id group_id ;;
  (if is_Some target then unban user_id group_id ;; ret tt else ret tt) ;;
  create user_id group_id ban_level (py_int now) reason duration
         (operator_or_0 operator) ;;
  ret tt.

Definition get_ban (id : option Z) (user_id group_id : option string)
  : M (option BanConsole) :=
  match id with
  | Some i => safe_get_or_none_id i
  | None => _get_data user_id group_id
  end.

(** ** Reading the table

    What a query designates, stated on the rows themselves. *)

Definition lookup (f : Filter) (s : Store) : option BanConsole :=
  find (matches f) (rows s).

(** The three tiers of identity resolution. *)
Definition tier (user_id group_id : option string) : Filter :=
  if truthy user_id
  then if truthy group_id
       then mkFilter (as_cond user_id) (as_cond group_id)
       else mkFilter (as_cond user_id) IsNull
  else mkFilter (Is "") (as_cond group_id).

(** The record [check_ban_time] settles on: the tier of the pair, and the
    global ban of the user when that tier is empty. *)
Definition resolve_time (user_id group_id : option string) (s : Store)
  : option BanConsole :=
  match lookup (tier user_id group_id) s with
  | Some r => Some r
  | None => if truthy user_id then lookup (tier user_id None) s else None
  end.

(** The store once the row of [r] has left the table. *)
Definition without (r : BanConsole) (s : Store) : Store :=
  mkStore (delete_rows (id r) (rows s)) (next_id s) (unique_nulls_distinct s).

(** The moment a timed ban runs out. *)
Definition deadline (r : BanConsole) : Q := inject_Z (ban_time r + duration r).

(** Invariant of the table: primary keys are distinct and below the
    counter, and a user-scoped key (user_id not NULL) names one row at
    most. *)
Record wf_store (s : Store) : Prop := mk_wf {
  wf_ids : NoDup (map id (rows s));
  wf_fresh : Forall (fun r => id r < next_id s) (rows s);
  wf_key : forall r1 r2,
      In r1 (rows s) -> In r2 (rows s) ->
      user_id r1 <> None ->
      user_id r1 = user_id r2 -> group_id r1 = group_id r2 -> r1 = r2
}.

(** The rows stored under the key (user_id, group_id), NULL standing for
    [None]. *)
Definition same_key (u g : option string) (r : BanConsole) : bool :=
  opt_eqb (user_id r) u && opt_eqb (group_id r) g.

Definition rows_for (u g : option string) (s : Store) : list BanConsole :=
  filter (same_key u g) (rows s).

(** The table [ban] creates its row in: the record of the tier, if any, has
    been lifted. *)
Definition after_replace (u g : option string) (s : Store) : Store :=
  match lookup (tier u g) s with
  | Some r => without r s
  | None => s
  end.

(** The row a call of [ban] writes. *)
Definition new_row (s : Store) (now : Q) (u g : option string) (level : Z)
    (reason : option string) (dur : Z) (op : option string) : BanConsole :=
  mkBanConsole (next_id s) u g level (py_int now) reason dur
               (operator_or_0 op).

(** ** Histories

    A call of the registry, with the clock reading it takes where it reads
    the clock, and the tables that calls lead to from the empty one. *)

Inductive call : Type :=
| CallBan (now : Q) (u g : option string) (level : Z)
          (reason : option string) (dur : Z) (op : option string)
| CallUnban (u g : option string)
| CallCheckBanTime (now : Q) (u g : option string)
| CallCheckBanLevel (u g : option string) (level : Z)
| CallIsBan (now : Q) (u g : option string)
| CallGetBan (i : option Z) (u g : option string).

Definition after (c : call) (s : Store) : Store :=
  match c with
  | CallBan now u g level reason dur op =>
      snd (ban now u g level reason dur op s)
  | CallUnban u g => snd (unban u g s)
  | CallCheckBanTime now u g => snd (check_ban_time now u g s)
  | CallCheckBanLevel u g level => snd (check_ban_level u g level s)
  | CallIsBan now u g => snd (is_ban now u g s)
  | CallGetBan i u g => snd (get_ban i u g s)
  end.

Inductive reachable (nd : bool) : Store -> Prop :=
| reach_empty : reachable nd (empty_store nd)
| reach_call (c : call) (s : Store) :
    reachable nd s -> reachable nd (after c s).

(** The rows that some identity designates: the user is not NULL, the
    group is not the empty string, and a NULL group comes with a user that
    is not empty. *)
Definition resolvable (r : BanConsole) : bool :=
  match user_id r, group_id r with
  | Some _, Some w => negb (String.eqb w "")
  | Some v, None => negb (String.eqb v "")
  | None, _ => false
  end.

(** A sequence of calls, first call first. *)
Definition after_all (cs : list call) (s : Store) : Store :=
  fold_left (fun t c => after c t) cs s.

(** ** Ranges

    The subtraction [time.time() - (ban_time + duration)] of doubles is
    exact when the clock reading is a double [m / 2^e], the integer
    [ban_time + duration] converts to a double without rounding, and the
    difference, a multiple of [1 / 2^e], has a numerator of 53 bits at
    most. *)
Definition double_exact (now : Q) (d : Z) : Prop :=
  exists m e : Z,
    0 <= e <= 1074
    /\ (now == inject_Z m / inject_Z (2 ^ e))%Q
    /\ Z.abs m <= 2 ^ 53
    /\ Z.abs d <= 2 ^ 53
    /\ Z.abs (m - d * 2 ^ e) <= 2 ^ 53.

(** [IntField]: a signed integer of 32 bits. *)
Definition int_field (z : Z) : Prop := - 2 ^ 31 <= z < 2 ^ 31.

(** [BigIntField]: a signed integer of 64 bits. *)
Definition big_int_field (z : Z) : Prop := - 2 ^ 63 <= z < 2 ^ 63.

(** [CharField(255, null=True)]. *)
Definition char_field (x : option string) : Prop :=
  match x with
  | Some v => (String.length v <= 255)%nat
  | None => True
  end.

(** The row that [ban] is about to write fits the columns of the table. *)
Definition fits_columns (s : Store) (now : Q) (u g : option string)
    (level dur : Z) (op : option string) : Prop :=
  int_field (next_id s)
  /\ char_field u /\ char_field g
  /\ int_field level
  /\ big_int_field (py_int now)
  /\ big_int_field dur
  /\ char_field (Some (operator_or_0 op)).

(** ** Sample tables

    The scenarios of the registry: a timed ban of a user in a group that
    starts at second 100 and lasts 60, and a permanent global ban of the same
    user. *)

Definition row_u1_g1 : BanConsole :=
  mkBanConsole 1 (Some "u1") (Some "g1") 5 100 (Some "spam") 60 "admin".

Definition row_u1_global : BanConsole :=
  mkBanConsole 2 (Some "u1") None 9 100 None (-1) "admin".

Definition store_pair : Store := mkStore [row_u1_g1] 2 true.

Definition store_global : Store := mkStore [row_u1_global] 3 true.

Definition store_both : Store := mkStore [row_u1_g1; row_u1_global] 3 true.

Definition row_u1_blank : BanConsole :=
  mkBanConsole 3 (Some "u1") (Some "") 5 100 None 60 "admin".

Definition row_g1_null : BanConsole :=
  mkBanConsole 4 None (Some "g1") 3 100 (Some "raid") (-1) "admin".

Definition store_blank : Store :=
  mkStore [row_u1_global; row_u1_blank; row_g1_null] 5 true.

(** * Properties *)

(** ** Clock arithmetic *)

Lemma Qltb_lt (x y : Q) : Qltb x y = true <-> (x < y)%Q.
Proof.
  unfold Qltb. rewrite negb_true_iff. split; intro H.
  - apply Qnot_le_lt. intro Hle. apply Qle_bool_iff in Hle. congruence.
  - destruct (Qle_bool y x) eqn:E; [|reflexivity].
    apply Qle_bool_iff in E. exfalso. apply (Qlt_not_le _ _ H E).
Qed.

Lemma Qltb_ge (x y : Q) : Qltb x y = false <-> (y <= x)%Q.
Proof.
  unfold Qltb. rewrite negb_false_iff. apply Qle_bool_iff.
Qed.

Lemma py_int_floor (q : Q) : (0 <= q)%Q -> py_int q = Qfloor q.
Proof.
  destruct q as [n d]. unfold Qle, py_int, Qfloor. simpl. intro H.
  apply Z.quot_div_nonneg; lia.
Qed.

Lemma Qfloor_pos (q : Q) : (1 <= q)%Q -> 0 < Qfloor q.
Proof.
  intro H. apply Qfloor_resp_le in H.
  change (Qfloor 1) with (Qfloor (inject_Z 1)) in H.
  rewrite Qfloor_Z in H. lia.
Qed.

(** [int(abs(now - deadline))] before the deadline: the whole seconds left. *)
Lemma remaining_floor (now d : Q) :
  (now < d)%Q -> py_int (Qabs (now - d)) = Qfloor (d - now).
Proof.
  intro H.
  rewrite py_int_floor by apply Qabs_nonneg.
  apply Qfloor_comp.
  rewrite Qabs_neg by lra. ring.
Qed.

(** ** Identity resolution *)

Lemma _get_data_given (u g : option string) (s : Store) :
  truthy u || truthy g = true ->
  _get_data u g s = (Return (lookup (tier u g) s), s).
Proof.
  unfold _get_data, tier, lookup, safe_get_or_none.
  destruct (truthy u), (truthy g); simpl; intro H;
    try reflexivity; discriminate.
Qed.

Lemma _get_data_unset (u g : option string) (s : Store) :
  truthy u = false -> truthy g = false ->
  _get_data u g s = (Raise UserAndGroupIsNone, s).
Proof.
  unfold _get_data. intros -> ->. reflexivity.
Qed.

Lemma truthy_Some (x : option string) :
  truthy x = true -> exists v, x = Some v /\ v <> "".
Proof.
  destruct x as [v|]; simpl; [|discriminate].
  rewrite negb_true_iff. intro H. exists v. split; [reflexivity|].
  intro E. subst. discriminate.
Qed.

Lemma truthy_of (v : string) : v <> "" -> truthy (Some v) = true.
Proof.
  intro H. simpl. destruct (String.eqb_spec v ""); [contradiction|reflexivity].
Qed.

(** ** Rows, lookups and deletions *)

Lemma holds_inj (c : cond) (x y : option string) :
  holds c x = true -> holds c y = true -> x = y.
Proof.
  destruct c as [v|], x as [a|], y as [b|]; simpl; try discriminate;
    try reflexivity.
  intros Ha Hb. apply String.eqb_eq in Ha, Hb. congruence.
Qed.

Lemma holds_as_cond (x y : option string) :
  holds (as_cond x) y = true <-> y = x.
Proof.
  destruct x as [a|], y as [b|]; simpl; split; try discriminate;
    try reflexivity.
  - intro H. apply String.eqb_eq in H. congruence.
  - intro H. inversion H. apply String.eqb_refl.
Qed.

Lemma matches_iff (cu cg : cond) (r : BanConsole) :
  matches (mkFilter cu cg) r = true <->
  holds cu (user_id r) = true /\ holds cg (group_id r) = true.
Proof. unfold matches. simpl. apply andb_true_iff. Qed.

Lemma lookup_Some (f : Filter) (s : Store) (r : BanConsole) :
  lookup f s = Some r -> In r (rows s) /\ matches f r = true.
Proof. apply find_some. Qed.

Lemma lookup_None (f : Filter) (s : Store) :
  lookup f s = None <-> forall r, In r (rows s) -> matches f r = false.
Proof.
  split.
  - intros H r. apply (find_none _ _ H).
  - unfold lookup. induction (rows s) as [|a l IH]; simpl; intro H.
    + reflexivity.
    + rewrite (H a) by (left; reflexivity).
      apply IH. intros r Hr. apply H. right. exact Hr.
Qed.

Lemma in_delete_rows (i : Z) (l : list BanConsole) (r : BanConsole) :
  In r (delete_rows i l) <-> In r l /\ id r <> i.
Proof.
  unfold delete_rows. rewrite filter_In, negb_true_iff, Z.eqb_neq.
  reflexivity.
Qed.

Lemma not_in_without (r : BanConsole) (s : Store) :
  ~ In r (rows (without r s)).
Proof. simpl. rewrite in_delete_rows. intros [_ H]. apply H. reflexivity. Qed.

Lemma find_delete_rows_skip (p : BanConsole -> bool) (i : Z)
    (l : list BanConsole) :
  (forall x, In x l -> id x = i -> p x = false) ->
  find p (delete_rows i l) = find p l.
Proof.
  induction l as [|a l IH]; simpl; intro H; [reflexivity|].
  destruct (Z.eqb_spec (id a) i) as [E|E]; simpl.
  - rewrite (H a) by auto. apply IH. intros x Hx. apply H. right. exact Hx.
  - destruct (p a); [reflexivity|].
    apply IH. intros x Hx. apply H. right. exact Hx.
Qed.

Lemma NoDup_id_eq (l : list BanConsole) (a b : BanConsole) :
  NoDup (map id l) -> In a l -> In b l -> id a = id b -> a = b.
Proof.
  induction l as [|x l IH]; simpl; [contradiction|].
  intros Hnd Ha Hb E. inversion Hnd as [|? ? Hx Hl]; subst.
  destruct Ha as [Ha|Ha], Hb as [Hb|Hb]; subst.
  - reflexivity.
  - exfalso. apply Hx. rewrite E. apply in_map. exact Hb.
  - exfalso. apply Hx. rewrite <- E. apply in_map. exact Ha.
  - apply IH; assumption.
Qed.

(** Primary keys stay distinct when rows leave the table. *)
Lemma delete_rows_NoDup (i : Z) (l : list BanConsole) :
  NoDup (map id l) -> NoDup (map id (delete_rows i l)).
Proof.
  unfold delete_rows. induction l as [|a l IH]; simpl; intro H.
  - constructor.
  - inversion H as [|? ? Ha Hl]; subst.
    destruct (negb (id a =? i)); simpl; [constructor|]; auto.
    intro Hin. apply Ha. apply in_map_iff in Hin.
    destruct Hin as [x [Hx Hi]]. apply filter_In in Hi.
    apply in_map_iff. exists x. tauto.
Qed.

(** Deleting a row keeps the table well formed. *)
Lemma wf_without (r : BanConsole) (s : Store) :
  wf_store s -> wf_store (without r s).
Proof.
  intros [Hi Hf Hk]. constructor; simpl.
  - apply delete_rows_NoDup. exact Hi.
  - unfold delete_rows. rewrite Forall_forall in *.
    intros x Hx. apply filter_In in Hx. apply Hf. tauto.
  - intros r1 r2 H1 H2. apply in_delete_rows in H1, H2.
    apply Hk; tauto.
Qed.

(** Once the row a user-scoped query designates is deleted, the query
    designates nothing. *)
Lemma lookup_without_same (v : string) (cg : cond) (s : Store)
    (r : BanConsole) :
  wf_store s ->
  lookup (mkFilter (Is v) cg) s = Some r ->
  lookup (mkFilter (Is v) cg) (without r s) = None.
Proof.
  intros Hwf H. apply lookup_Some in H. destruct H as [Hin Hm].
  apply lookup_None. intros x Hx. simpl in Hx.
  apply in_delete_rows in Hx. destruct Hx as [Hx Hid].
  destruct (matches (mkFilter (Is v) cg) x) eqn:E; [|reflexivity].
  exfalso. apply Hid. f_equal.
  apply matches_iff in Hm, E. destruct Hm as [Hu Hg], E as [Hu' Hg'].
  symmetry. apply (wf_key s Hwf r x Hin Hx).
  - destruct (user_id r); [discriminate|discriminate Hu].
  - apply (holds_inj _ _ _ Hu Hu').
  - apply (holds_inj _ _ _ Hg Hg').
Qed.

Lemma tier_user (u g : option string) :
  exists v cg, tier u g = mkFilter (Is v) cg.
Proof.
  unfold tier. destruct (truthy u) eqn:Eu.
  - apply truthy_Some in Eu. destruct Eu as [v [-> _]]. simpl.
    destruct (truthy g); eauto.
  - eauto.
Qed.

Ltac wf_concrete :=
  constructor; simpl;
  [ repeat constructor; simpl; intuition congruence
  | repeat constructor; simpl; lia
  | intros r1 r2 H1 H2;
    repeat (destruct H1 as [H1|H1]; [subst r1|]); try contradiction;
    repeat (destruct H2 as [H2|H2]; [subst r2|]); try contradiction;
    simpl; intros; congruence ].

Lemma wf_empty (nd : bool) : wf_store (empty_store nd).
Proof. wf_concrete. Qed.

Lemma wf_store_pair : wf_store store_pair.
Proof. wf_concrete. Qed.

Lemma wf_store_global : wf_store store_global.
Proof. wf_concrete. Qed.

Lemma wf_store_both : wf_store store_both.
Proof. wf_concrete. Qed.

(** ** [check_ban_time] as a function of the record it settles on *)

Lemma check_ban_time_resolve (now : Q) (u g : option string) (s : Store) :
  truthy u || truthy g = true ->
  check_ban_time now u g s =
  match resolve_time u g s with
  | None => (Return 0, s)
  | Some r =>
      if duration r =? -1 then (Return (-1), s)
      else if Qltb (now - deadline r) 0
           then (Return (py_int (Qabs (now - deadline r))), s)
           else (Return 0, without r s)
  end.
Proof.
  intro Hid. unfold check_ban_time, resolve_time, bind.
  rewrite (_get_data_given u g s Hid).
  destruct (lookup (tier u g) s) as [r|] eqn:E; simpl.
  - unfold ret, deadline, delete, without.
    destruct (duration r =? -1); [reflexivity|].
    destruct (Qltb _ 0); reflexivity.
  - destruct (truthy u) eqn:Eu; simpl.
    + rewrite (_get_data_given u None s) by (rewrite Eu; reflexivity).
      destruct (lookup (tier u None) s) as [r|]; [|reflexivity].
      unfold ret, deadline, delete, without.
      destruct (duration r =? -1); [reflexivity|].
      destruct (Qltb _ 0); reflexivity.
    + reflexivity.
Qed.

(** ** The result of [check_ban_time] *)

Lemma check_ban_time_permanent (now : Q) (u g : option string) (s : Store)
    (r : BanConsole) :
  truthy u || truthy g = true -> resolve_time u g s = Some r ->
  duration r = -1 -> check_ban_time now u g s = (Return (-1), s).
Proof.
  intros Hid Hr Hd.
  rewrite (check_ban_time_resolve now u g s Hid), Hr, Hd. reflexivity.
Qed.

Lemma check_ban_time_active (now : Q) (u g : option string) (s : Store)
    (r : BanConsole) :
  truthy u || truthy g = true -> resolve_time u g s = Some r ->
  duration r <> -1 -> (now + 1 <= deadline r)%Q ->
  exists v,
    check_ban_time now u g s = (Return v, s) /\ 0 < v
    /\ (double_exact now (ban_time r + duration r) ->
        v = Qfloor (deadline r - now)).
Proof.
  intros Hid Hr Hd Hl.
  rewrite (check_ban_time_resolve now u g s Hid), Hr.
  apply Z.eqb_neq in Hd. rewrite Hd.
  assert (Hlt : Qltb (now - deadline r) 0 = true) by (apply Qltb_lt; lra).
  rewrite Hlt. eexists. split; [reflexivity|].
  rewrite remaining_floor by lra.
  split; [apply Qfloor_pos; lra|reflexivity].
Qed.

Lemma check_ban_time_expired (now : Q) (u g : option string) (s : Store)
    (r : BanConsole) :
  truthy u || truthy g = true -> resolve_time u g s = Some r ->
  duration r <> -1 -> (deadline r <= now)%Q ->
  check_ban_time now u g s = (Return 0, without r s).
Proof.
  intros Hid Hr Hd Hl.
  rewrite (check_ban_time_resolve now u g s Hid), Hr.
  apply Z.eqb_neq in Hd. rewrite Hd.
  assert (Hge : Qltb (now - deadline r) 0 = false) by (apply Qltb_ge; lra).
  rewrite Hge. reflexivity.
Qed.

(** C1, as the code has it. With at least one of user_id and group_id set:
    when no record resolves the result is 0; when the resolved record has
    duration -1 the result is -1; when the record is timed and at least one
    whole second is left before ban_time + duration, the result is a
    positive integer and the table is untouched, and where the subtraction
    of line 113 is exact that integer is the number of whole seconds left;
    when now has reached ban_time + duration the record is deleted and the
    result is 0. *)
Theorem check_ban_time_cases (now : Q) (u g : option string) (s : Store) :
  truthy u || truthy g = true ->
  match resolve_time u g s with
  | None => check_ban_time now u g s = (Return 0, s)
  | Some r =>
      (duration r = -1 -> check_ban_time now u g s = (Return (-1), s))
      /\ (duration r <> -1 -> (now + 1 <= deadline r)%Q ->
          exists v,
            check_ban_time now u g s = (Return v, s) /\ 0 < v
            /\ (double_exact now (ban_time r + duration r) ->
                v = Qfloor (deadline r - now)))
      /\ (duration r <> -1 -> (deadline r <= now)%Q ->
          check_ban_time now u g s = (Return 0, without r s)
          /\ ~ In r (rows (without r s)))
  end.
Proof.
  intro Hid. destruct (resolve_time u g s) as [r|] eqn:Hr.
  - split; [|split].
    + apply (check_ban_time_permanent now u g s r Hid Hr).
    + apply (check_ban_time_active now u g s r Hid Hr).
    + intros Hd Hl. split; [|apply not_in_without].
      apply (check_ban_time_expired now u g s r Hid Hr Hd Hl).
  - rewrite (check_ban_time_resolve now u g s Hid), Hr. reflexivity.
Qed.

Lemma double_exact_130_160 : double_exact (130#1) (100 + 60).
Proof.
  exists 130, 0. split; [lia|]. split; [reflexivity|]. lia.
Qed.

Lemma check_ban_time_cases_witness :
  truthy (Some "u1") || truthy (Some "g1") = true
  /\ check_ban_time (130#1) (Some "u1") (Some "g1") store_pair
     = (Return 30, store_pair).
Proof.
  split; [reflexivity|].
  pose proof (check_ban_time_cases (130#1) (Some "u1") (Some "g1")
                store_pair eq_refl) as H.
  simpl in H. destruct H as [_ [H _]].
  destruct H as [v [E [_ Hv]]];
    [discriminate | vm_compute; discriminate |].
  rewrite E, (Hv double_exact_130_160). reflexivity.
Defined.

(** C1 as it is worded fails half a second before the deadline: the ban of
    [store_pair] runs until second 160, and at second 159.5 the result is 0,
    which is neither [abs(now - (ban_time + duration))] = 1/2 nor positive. *)
Lemma check_ban_time_cases_counterexample :
  resolve_time (Some "u1") (Some "g1") store_pair = Some row_u1_g1
  /\ duration row_u1_g1 <> -1
  /\ (319#2 < deadline row_u1_g1)%Q
  /\ exists v,
      check_ban_time (319#2) (Some "u1") (Some "g1") store_pair
      = (Return v, store_pair)
      /\ ~ (inject_Z v == Qabs ((319#2) - deadline row_u1_g1))%Q
      /\ ~ 0 < v.
Proof.
  split; [reflexivity|].
  split; [discriminate|].
  split; [reflexivity|].
  exists 0. split; [reflexivity|].
  split; [vm_compute; discriminate | lia].
Qed.

(** ** Missing identity *)

(** C6. With user_id and group_id both unset (None or empty), each method
    that resolves an identity raises [UserAndGroupIsNone]: the exception
    reaches the caller, no method turns it into a result, and the table is
    as it was. *)
Theorem identity_required (now : Q) (u g : option string) (level : Z)
    (reason : option string) (dur : Z) (op : option string) (s : Store) :
  truthy u = false -> truthy g = false ->
  check_ban_time now u g s = (Raise UserAndGroupIsNone, s)
  /\ check_ban_level u g level s = (Raise UserAndGroupIsNone, s)
  /\ is_ban now u g s = (Raise UserAndGroupIsNone, s)
  /\ ban now u g level reason dur op s = (Raise UserAndGroupIsNone, s)
  /\ unban u g s = (Raise UserAndGroupIsNone, s)
  /\ get_ban None u g s = (Raise UserAndGroupIsNone, s).
Proof.
  intros Hu Hg.
  pose proof (_get_data_unset u g s Hu Hg) as H.
  unfold check_ban_time, check_ban_level, is_ban, check_ban_time, ban,
    unban, get_ban, bind.
  rewrite H. repeat split; reflexivity.
Qed.

Lemma identity_required_witness :
  truthy (Some "") = false /\ truthy None = false
  /\ unban (Some "") None store_both = (Raise UserAndGroupIsNone, store_both)
  /\ is_ban (130#1) (Some "") None store_both
     = (Raise UserAndGroupIsNone, store_both).
Proof.
  pose proof (identity_required (130#1) (Some "") None 0 None 0 None
                store_both eq_refl eq_refl) as H.
  split; [reflexivity|]. split; [reflexivity|].
  split; [apply H | apply H].
Defined.

(** ** Authority to lift a ban *)

(** C5. [check_ban_level] returns a boolean and leaves the table alone; the
    boolean is true exactly when the tier of (user_id, group_id) holds a
    record whose ban_level is at most [level]; when the tier is empty it is
    false whatever the level. *)
Theorem check_ban_level_iff (u g : option string) (level : Z) (s : Store) :
  truthy u || truthy g = true ->
  (exists b,
      check_ban_level u g level s = (Return b, s)
      /\ (b = true <->
          exists r, lookup (tier u g) s = Some r /\ ban_level r <= level))
  /\ (lookup (tier u g) s = None ->
      forall lv, check_ban_level u g lv s = (Return false, s)).
Proof.
  intro Hid. unfold check_ban_level, bind.
  rewrite (_get_data_given u g s Hid).
  destruct (lookup (tier u g) s) as [r|]; simpl; split.
  - exists (ban_level r <=? level). split; [reflexivity|].
    rewrite Z.leb_le. split.
    + intro H. exists r. split; [reflexivity|exact H].
    + intros [r' [E H]]. inversion E. subst. exact H.
  - discriminate.
  - exists false. split; [reflexivity|].
    split; [discriminate|]. intros [r [E _]]. discriminate.
  - reflexivity.
Qed.

Lemma check_ban_level_iff_witness :
  truthy (Some "u1") || truthy (Some "g1") = true
  /\ check_ban_level (Some "u1") (Some "g1") 5 store_pair
     = (Return true, store_pair)
  /\ check_ban_level (Some "u1") (Some "g1") 4 store_pair
     = (Return false, store_pair).
Proof.
  split; [reflexivity|].
  destruct (check_ban_level_iff (Some "u1") (Some "g1") 5 store_pair eq_refl)
    as [[b [H1 H2]] _].
  destruct (check_ban_level_iff (Some "u1") (Some "g1") 4 store_pair eq_refl)
    as [[c [H3 H4]] _].
  split.
  - rewrite H1. f_equal. f_equal. apply H2.
    exists row_u1_g1. split; [reflexivity|]. simpl. lia.
  - rewrite H3. f_equal. f_equal. destruct c; [|reflexivity].
    destruct H4 as [H4 _]. destruct (H4 eq_refl) as [r [E Hl]].
    inversion E. subst r. simpl in Hl. lia.
Defined.

(** ** More on lookups *)

Lemma lookup_unique (v : string) (cg : cond) (s : Store) (r : BanConsole) :
  wf_store s -> In r (rows s) ->
  user_id r = Some v -> holds cg (group_id r) = true ->
  lookup (mkFilter (Is v) cg) s = Some r.
Proof.
  intros Hwf Hin Hu Hg.
  destruct (lookup (mkFilter (Is v) cg) s) as [x|] eqn:E.
  - apply lookup_Some in E. destruct E as [Hx Hm].
    apply matches_iff in Hm. destruct Hm as [Hxu Hxg].
    f_equal. symmetry. apply (wf_key s Hwf r x Hin Hx).
    + rewrite Hu. discriminate.
    + rewrite Hu. destruct (user_id x) as [w|]; [|discriminate].
      simpl in Hxu. apply String.eqb_eq in Hxu. congruence.
    + apply (holds_inj _ _ _ Hg Hxg).
  - exfalso. rewrite lookup_None in E. specialize (E r Hin).
    unfold matches in E. simpl in E. rewrite Hu, Hg in E. simpl in E.
    rewrite String.eqb_refl in E. discriminate.
Qed.

Lemma lookup_without_none (f : Filter) (s : Store) (r : BanConsole) :
  lookup f s = None -> lookup f (without r s) = None.
Proof.
  rewrite !lookup_None. intros H x Hx. simpl in Hx.
  apply in_delete_rows in Hx. apply H. tauto.
Qed.

Lemma in_without (p r : BanConsole) (s : Store) :
  wf_store s -> In p (rows s) -> In r (rows s) -> p <> r ->
  In p (rows (without r s)).
Proof.
  intros Hwf Hp Hr Hne. simpl. apply in_delete_rows. split; [exact Hp|].
  intro E. apply Hne. apply (NoDup_id_eq _ p r (wf_ids s Hwf) Hp Hr E).
Qed.

Lemma resolve_time_In (u g : option string) (s : Store) (r : BanConsole) :
  resolve_time u g s = Some r -> In r (rows s).
Proof.
  unfold resolve_time. destruct (lookup (tier u g) s) as [x|] eqn:E.
  - intro H. inversion H. subst. apply (lookup_Some _ _ _ E).
  - destruct (truthy u); [|discriminate].
    intro H. apply (lookup_Some _ _ _ H).
Qed.

Lemma unban_given (u g : option string) (s : Store) :
  truthy u || truthy g = true ->
  unban u g s =
  match lookup (tier u g) s with
  | Some r => (Return true, without r s)
  | None => (Return false, s)
  end.
Proof.
  intro Hid. unfold unban, bind. rewrite (_get_data_given u g s Hid).
  destruct (lookup (tier u g) s); reflexivity.
Qed.

Lemma lookup_tier_without (u g : option string) (s : Store) (r : BanConsole) :
  wf_store s -> lookup (tier u g) s = Some r ->
  lookup (tier u g) (without r s) = None.
Proof.
  destruct (tier_user u g) as [v [cg ->]]. apply lookup_without_same.
Qed.

(** The table after [check_ban_time]: untouched, or short of the timed
    record that had run out. *)
Lemma check_ban_time_store (now : Q) (u g : option string) (s : Store) :
  snd (check_ban_time now u g s) = s
  \/ exists r, resolve_time u g s = Some r /\ duration r <> -1
               /\ check_ban_time now u g s = (Return 0, without r s).
Proof.
  destruct (truthy u || truthy g) eqn:Hid.
  - rewrite (check_ban_time_resolve now u g s Hid).
    destruct (resolve_time u g s) as [r|]; [|left; reflexivity].
    destruct (Z.eqb_spec (duration r) (-1)); [left; reflexivity|].
    destruct (Qltb _ 0); [left; reflexivity|].
    right. exists r. auto.
  - apply orb_false_iff in Hid. destruct Hid as [Hu Hg].
    left. unfold check_ban_time, bind.
    rewrite (_get_data_unset u g s Hu Hg). reflexivity.
Qed.

(** [check_ban_level] and [get_ban] only read. *)
Lemma check_ban_level_store (u g : option string) (level : Z) (s : Store) :
  snd (check_ban_level u g level s) = s.
Proof.
  unfold check_ban_level, bind, _get_data.
  destruct (negb (truthy u) && negb (truthy g)); [reflexivity|].
  destruct (truthy u), (truthy g); simpl;
    match goal with |- context [find ?f ?l] => destruct (find f l) end;
    reflexivity.
Qed.

Lemma get_ban_store (i : option Z) (u g : option string) (s : Store) :
  snd (get_ban i u g s) = s.
Proof.
  unfold get_ban, _get_data. destruct i; [reflexivity|].
  destruct (negb (truthy u) && negb (truthy g)); [reflexivity|].
  destruct (truthy u), (truthy g); reflexivity.
Qed.

(** [is_ban] never removes a permanent record. *)
Lemma is_ban_keeps_permanent (now : Q) (u g : option string) (s : Store)
    (p : BanConsole) :
  wf_store s -> In p (rows s) -> duration p = -1 ->
  In p (rows (snd (is_ban now u g s))).
Proof.
  intros Hwf Hp Hd.
  assert (Hout : forall r, In r (rows s) -> duration r <> -1 ->
                           In p (rows (without r s))).
  { intros r Hr Hn. apply in_without; try assumption. congruence. }
  destruct (truthy u || truthy g) eqn:Hid.
  2:{ apply orb_false_iff in Hid. destruct Hid as [Hu Hg].
      unfold is_ban, check_ban_time, bind.
      rewrite (_get_data_unset u g s Hu Hg). exact Hp. }
  assert (Hun : forall s', unban u g s' =
                          match lookup (tier u g) s' with
                          | Some r => (Return true, without r s')
                          | None => (Return false, s')
                          end)
    by (intro s'; apply unban_given; exact Hid).
  unfold is_ban, bind.
  rewrite (check_ban_time_resolve now u g s Hid). unfold resolve_time.
  destruct (lookup (tier u g) s) as [r|] eqn:E.
  - pose proof (proj1 (lookup_Some _ _ _ E)) as Hr.
    destruct (Z.eqb_spec (duration r) (-1)) as [Ed|Ed]; [exact Hp|].
    destruct (Qltb _ 0).
    + destruct (negb (_ =? 0)); [exact Hp|].
      rewrite Hun, E. simpl. apply Hout; assumption.
    + simpl. rewrite Hun.
      rewrite (lookup_tier_without u g s r Hwf E). simpl.
      apply Hout; assumption.
  - destruct (truthy u) eqn:Eu.
    + destruct (lookup (tier u None) s) as [r|] eqn:E2.
      * pose proof (proj1 (lookup_Some _ _ _ E2)) as Hr.
        destruct (Z.eqb_spec (duration r) (-1)) as [Ed|Ed]; [exact Hp|].
        destruct (Qltb _ 0).
        -- destruct (negb (_ =? 0)); [exact Hp|].
           rewrite Hun, E. exact Hp.
        -- simpl. rewrite Hun.
           rewrite (lookup_without_none _ s r E). simpl.
           apply Hout; assumption.
      * simpl. rewrite Hun, E. exact Hp.
    + simpl. rewrite Hun, E. exact Hp.
Qed.

(** ** Permanent bans *)

(** A record with duration -1 that some identity resolves, in a well-formed
    table: every [check_ban_time] that resolves it returns -1, whatever the
    clock shows, and leaves the table as it is; and after any
    [check_ban_time], [check_ban_level], [get_ban] or [is_ban], on any
    identity and at any time, the record is still in the table. *)
Theorem permanent_ban_never_expires (s : Store) (p : BanConsole) :
  wf_store s -> In p (rows s) -> duration p = -1 ->
  (forall now u g,
      truthy u || truthy g = true -> resolve_time u g s = Some p ->
      check_ban_time now u g s = (Return (-1), s))
  /\ (forall now u g, In p (rows (snd (check_ban_time now u g s))))
  /\ (forall u g level, snd (check_ban_level u g level s) = s)
  /\ (forall i u g, snd (get_ban i u g s) = s)
  /\ (forall now u g, In p (rows (snd (is_ban now u g s)))).
Proof.
  intros Hwf Hp Hd. repeat split.
  - intros now u g Hid Hr.
    rewrite (check_ban_time_resolve now u g s Hid), Hr, Hd. reflexivity.
  - intros now u g.
    destruct (check_ban_time_store now u g s) as [E|[r [Hr [Hn E]]]].
    + rewrite E. exact Hp.
    + rewrite E. apply in_without; try assumption.
      * apply (resolve_time_In _ _ _ _ Hr).
      * congruence.
  - intros u g level. apply check_ban_level_store.
  - intros i u g. apply get_ban_store.
  - intros now u g. apply is_ban_keeps_permanent; assumption.
Qed.

Lemma permanent_ban_never_expires_witness :
  wf_store store_both /\ In row_u1_global (rows store_both)
  /\ duration row_u1_global = -1
  /\ check_ban_time (1000000#1) (Some "u1") None store_both
     = (Return (-1), store_both)
  /\ In row_u1_global
        (rows (snd (is_ban (1000000#1) (Some "u1") (Some "g1") store_both))).
Proof.
  assert (Hin : In row_u1_global (rows store_both))
    by (simpl; right; left; reflexivity).
  pose proof (permanent_ban_never_expires store_both row_u1_global
                wf_store_both Hin eq_refl) as [H1 [_ [_ [_ H5]]]].
  split; [exact wf_store_both|]. split; [exact Hin|].
  split; [reflexivity|].
  split; [apply H1; reflexivity | apply H5].
Defined.

(** C3 at the permanent ban of a group. [ban(None, "g1", ..., -1, ...)]
    writes a record with duration -1 under user_id NULL, and [_get_data]
    looks the group up under user_id = "": at every clock value
    [check_ban_time(None, "g1")] returns 0, not -1, and [is_ban] returns
    false, whichever way the database treats NULLs; no identity at all makes
    [check_ban_time] settle on the record. *)
Theorem permanent_group_ban_unseen (nd : bool) (now : Q) :
  let row := mkBanConsole 1 None (Some "g1") 3 100 (Some "raid") (-1)
                          "admin" in
  let s1 := mkStore [row] 2 nd in
  ban (100#1) None (Some "g1") 3 (Some "raid") (-1) (Some "admin")
      (empty_store nd) = (Return tt, s1)
  /\ duration row = -1
  /\ check_ban_time now None (Some "g1") s1 = (Return 0, s1)
  /\ is_ban now None (Some "g1") s1 = (Return false, s1)
  /\ (forall u g, resolve_time u g s1 = None).
Proof.
  cbv zeta. split; [reflexivity|]. split; [reflexivity|].
  split; [reflexivity|]. split; [reflexivity|].
  intros u g. unfold resolve_time, lookup, tier. simpl.
  destruct (truthy u) eqn:Eu.
  - apply truthy_Some in Eu. destruct Eu as [v [-> _]].
    destruct (truthy g); reflexivity.
  - reflexivity.
Qed.

(** ** The fallback to the global ban *)

Lemma tier_pair (u g : string) :
  u <> "" -> g <> "" -> tier (Some u) (Some g) = mkFilter (Is u) (Is g).
Proof.
  intros Hu Hg. unfold tier.
  rewrite (truthy_of u Hu), (truthy_of g Hg). reflexivity.
Qed.

Lemma tier_global (u : string) :
  u <> "" -> tier (Some u) None = mkFilter (Is u) IsNull.
Proof. intro Hu. unfold tier. rewrite (truthy_of u Hu). reflexivity. Qed.

Lemma no_pair_lookup (u g : string) (s : Store) :
  (forall r, In r (rows s) ->
             ~ (user_id r = Some u /\ group_id r = Some g)) ->
  lookup (mkFilter (Is u) (Is g)) s = None.
Proof.
  intro H. apply lookup_None. intros r Hr.
  destruct (matches _ r) eqn:E; [|reflexivity].
  exfalso. apply (H r Hr). apply matches_iff in E. destruct E as [Eu Eg].
  split.
  - apply (holds_as_cond (Some u)). exact Eu.
  - apply (holds_as_cond (Some g)). exact Eg.
Qed.

(** What [check_ban_time] returns for a record that is permanent or has a
    whole second left: a value other than 0, with the table untouched. *)
Lemma check_ban_time_banned (now : Q) (u g : option string) (s : Store)
    (r : BanConsole) :
  truthy u || truthy g = true -> resolve_time u g s = Some r ->
  duration r = -1 \/ (now + 1 <= deadline r)%Q ->
  exists v, check_ban_time now u g s = (Return v, s) /\ v <> 0.
Proof.
  intros Hid Hr Hact. rewrite (check_ban_time_resolve now u g s Hid), Hr.
  destruct (Z.eqb_spec (duration r) (-1)) as [Ed|Ed].
  - exists (-1). split; [reflexivity|lia].
  - destruct Hact as [Hd|Hl]; [contradiction|].
    assert (Hlt : Qltb (now - deadline r) 0 = true) by (apply Qltb_lt; lra).
    rewrite Hlt. eexists. split; [reflexivity|].
    rewrite remaining_floor by lra.
    assert (0 < Qfloor (deadline r - now)) by (apply Qfloor_pos; lra). lia.
Qed.

(** C4. [check_ban_time(u, g)] with u and g both set and no record for the
    pair (u, g) settles on the global record of u (group_id NULL), and its
    result and its effect on the table are those of [check_ban_time(u)]
    asked without a group. What it reports is the state of that record: 0
    when u has no global record; -1 when the global ban is permanent; a
    positive integer, the table untouched, when the global ban is timed and
    has a whole second left (the number of whole seconds left, where the
    subtraction of line 113 is exact); and 0, with the global record
    deleted, when the global ban has run out. *)
Theorem check_ban_time_global_fallback (now : Q) (u g : string) (s : Store) :
  u <> "" -> g <> "" ->
  (forall r, In r (rows s) ->
             ~ (user_id r = Some u /\ group_id r = Some g)) ->
  resolve_time (Some u) (Some g) s = lookup (mkFilter (Is u) IsNull) s
  /\ check_ban_time now (Some u) (Some g) s
     = check_ban_time now (Some u) None s
  /\ match lookup (mkFilter (Is u) IsNull) s with
     | None => check_ban_time now (Some u) (Some g) s = (Return 0, s)
     | Some r =>
         (duration r = -1 ->
          check_ban_time now (Some u) (Some g) s = (Return (-1), s))
         /\ (duration r <> -1 -> (now + 1 <= deadline r)%Q ->
             exists v,
               check_ban_time now (Some u) (Some g) s = (Return v, s)
               /\ 0 < v
               /\ (double_exact now (ban_time r + duration r) ->
                   v = Qfloor (deadline r - now)))
         /\ (duration r <> -1 -> (deadline r <= now)%Q ->
             check_ban_time now (Some u) (Some g) s
             = (Return 0, without r s)
             /\ ~ In r (rows (without r s)))
     end.
Proof.
  intros Hu Hg Hno.
  assert (Hres : resolve_time (Some u) (Some g) s
                 = lookup (mkFilter (Is u) IsNull) s).
  { unfold resolve_time. rewrite (tier_pair u g Hu Hg), (tier_global u Hu).
    rewrite (no_pair_lookup u g s Hno), (truthy_of u Hu). reflexivity. }
  assert (Hid : forall x, truthy (Some u) || truthy x = true)
    by (intro x; rewrite (truthy_of u Hu); reflexivity).
  split; [exact Hres|]. split.
  - rewrite (check_ban_time_resolve now _ _ s (Hid (Some g))).
    rewrite (check_ban_time_resolve now _ _ s (Hid None)).
    rewrite Hres. unfold resolve_time. rewrite (tier_global u Hu).
    destruct (lookup (mkFilter (Is u) IsNull) s); [reflexivity|].
    rewrite (truthy_of u Hu). reflexivity.
  - destruct (lookup (mkFilter (Is u) IsNull) s) as [r|] eqn:El.
    + split; [|split].
      * apply (check_ban_time_permanent now _ _ s r (Hid (Some g)) Hres).
      * apply (check_ban_time_active now _ _ s r (Hid (Some g)) Hres).
      * intros Hd Hl. split; [|apply not_in_without].
        apply (check_ban_time_expired now _ _ s r (Hid (Some g)) Hres Hd Hl).
    + rewrite (check_ban_time_resolve now _ _ s (Hid (Some g))), Hres.
      reflexivity.
Qed.

Lemma check_ban_time_global_fallback_witness :
  "u1" <> "" /\ "g9" <> ""
  /\ (forall r, In r (rows store_global) ->
                ~ (user_id r = Some "u1" /\ group_id r = Some "g9"))
  /\ check_ban_time (130#1) (Some "u1") (Some "g9") store_global
     = check_ban_time (130#1) (Some "u1") None store_global
  /\ check_ban_time (130#1) (Some "u1") (Some "g9") store_global
     = (Return (-1), store_global).
Proof.
  assert (Hno : forall r, In r (rows store_global) ->
                  ~ (user_id r = Some "u1" /\ group_id r = Some "g9")).
  { intros r [<-|[]] [_ H]. discriminate. }
  split; [discriminate|]. split; [discriminate|]. split; [exact Hno|].
  destruct (check_ban_time_global_fallback (130#1) "u1" "g9" store_global)
    as [_ [H2 H3]]; [discriminate | discriminate | exact Hno |].
  split; [exact H2|]. simpl in H3. destruct H3 as [H3 _].
  apply H3. reflexivity.
Defined.

(** C9. A user u whose only record is a global ban: for a group g that is
    set, [check_ban_level(u, g, level)] is false at every level, nothing
    being looked up beyond the pair (u, g); [check_ban_time(u, g)] answers
    as [check_ban_time(u)] does, and reports a value other than 0 while the
    global ban is permanent or has a whole second left. *)
Theorem check_ban_level_no_fallback (u g : string) (s : Store)
    (p : BanConsole) :
  u <> "" -> g <> "" ->
  In p (rows s) -> user_id p = Some u -> group_id p = None ->
  (forall r, In r (rows s) -> user_id r = Some u -> r = p) ->
  (forall level,
      check_ban_level (Some u) (Some g) level s = (Return false, s))
  /\ (forall now, resolve_time (Some u) (Some g) s = Some p
                  /\ check_ban_time now (Some u) (Some g) s
                     = check_ban_time now (Some u) None s)
  /\ (forall now, duration p = -1 \/ (now + 1 <= deadline p)%Q ->
                  exists v, check_ban_time now (Some u) (Some g) s
                            = (Return v, s) /\ v <> 0).
Proof.
  intros Hu Hg Hp Hpu Hpg Honly.
  assert (Hno : forall r, In r (rows s) ->
                  ~ (user_id r = Some u /\ group_id r = Some g)).
  { intros r Hr [Hru Hrg]. rewrite (Honly r Hr Hru) in Hrg. congruence. }
  assert (Hglob : lookup (mkFilter (Is u) IsNull) s = Some p).
  { destruct (lookup (mkFilter (Is u) IsNull) s) as [x|] eqn:E.
    - apply lookup_Some in E. destruct E as [Hx Hm].
      apply matches_iff in Hm. destruct Hm as [Hxu _].
      apply (holds_as_cond (Some u)) in Hxu.
      rewrite (Honly x Hx Hxu). reflexivity.
    - exfalso. rewrite lookup_None in E. specialize (E p Hp).
      unfold matches in E. simpl in E. rewrite Hpu, Hpg in E. simpl in E.
      rewrite String.eqb_refl in E. discriminate. }
  assert (Hid : forall x, truthy (Some u) || truthy x = true)
    by (intro x; rewrite (truthy_of u Hu); reflexivity).
  assert (Hres : resolve_time (Some u) (Some g) s = Some p).
  { unfold resolve_time. rewrite (tier_pair u g Hu Hg), (tier_global u Hu).
    rewrite (no_pair_lookup u g s Hno), (truthy_of u Hu). exact Hglob. }
  repeat split.
  - intro level. unfold check_ban_level, bind.
    rewrite (_get_data_given _ _ s (Hid (Some g))), (tier_pair u g Hu Hg).
    rewrite (no_pair_lookup u g s Hno). reflexivity.
  - exact Hres.
  - rewrite (check_ban_time_resolve now _ _ s (Hid (Some g))).
    rewrite (check_ban_time_resolve now _ _ s (Hid None)).
    rewrite Hres. unfold resolve_time.
    rewrite (tier_global u Hu), Hglob. reflexivity.
  - intros now Hact.
    apply (check_ban_time_banned now _ _ s p (Hid (Some g)) Hres Hact).
Qed.

Lemma check_ban_level_no_fallback_witness :
  "u1" <> "" /\ "g9" <> "" /\ In row_u1_global (rows store_global)
  /\ (forall r, In r (rows store_global) -> user_id r = Some "u1" ->
                r = row_u1_global)
  /\ check_ban_level (Some "u1") (Some "g9") 9999 store_global
     = (Return false, store_global)
  /\ exists v, check_ban_time (130#1) (Some "u1") (Some "g9") store_global
               = (Return v, store_global) /\ v <> 0.
Proof.
  assert (Hin : In row_u1_global (rows store_global))
    by (left; reflexivity).
  assert (Honly : forall r, In r (rows store_global) ->
                    user_id r = Some "u1" -> r = row_u1_global).
  { intros r [<-|[]] _. reflexivity. }
  destruct (check_ban_level_no_fallback "u1" "g9" store_global row_u1_global)
    as [H1 [_ H3]]; try (discriminate || reflexivity || assumption).
  split; [discriminate|]. split; [discriminate|]. split; [exact Hin|].
  split; [exact Honly|]. split; [apply H1|].
  apply H3. left. reflexivity.
Defined.

(** ** An expired pair record in front of a global ban *)

(** C10. The record of the pair (u, g) has run out and u also holds a
    global ban. [check_ban_time(u, g)] deletes the pair record and returns
    0 without a look at the global ban, which stays in the table; the next
    [check_ban_time(u, g)] finds no pair record, settles on the global ban
    and answers as [check_ban_time(u)] does: -1 for a permanent ban, the
    positive integer for a timed one that has a whole second to run (the
    number of whole seconds left, where the subtraction of line 113 is
    exact). *)
Theorem expired_pair_hides_global (now1 now2 : Q) (u g : string) (s : Store)
    (e p : BanConsole) :
  wf_store s -> u <> "" -> g <> "" ->
  In e (rows s) -> user_id e = Some u -> group_id e = Some g ->
  duration e <> -1 -> (deadline e <= now1)%Q ->
  In p (rows s) -> user_id p = Some u -> group_id p = None ->
  check_ban_time now1 (Some u) (Some g) s = (Return 0, without e s)
  /\ ~ In e (rows (without e s)) /\ In p (rows (without e s))
  /\ resolve_time (Some u) (Some g) (without e s) = Some p
  /\ check_ban_time now2 (Some u) (Some g) (without e s)
     = check_ban_time now2 (Some u) None (without e s)
  /\ (duration p = -1 ->
      check_ban_time now2 (Some u) (Some g) (without e s)
      = (Return (-1), without e s))
  /\ (duration p <> -1 -> (now2 + 1 <= deadline p)%Q ->
      exists v,
        check_ban_time now2 (Some u) (Some g) (without e s)
        = (Return v, without e s)
        /\ 0 < v
        /\ (double_exact now2 (ban_time p + duration p) ->
            v = Qfloor (deadline p - now2))).
Proof.
  intros Hwf Hu Hg He Heu Heg Hed Hexp Hp Hpu Hpg.
  assert (Hid : forall x, truthy (Some u) || truthy x = true)
    by (intro x; rewrite (truthy_of u Hu); reflexivity).
  assert (Hpair : lookup (mkFilter (Is u) (Is g)) s = Some e).
  { apply lookup_unique; try assumption.
    rewrite Heg. simpl. apply String.eqb_refl. }
  assert (Hne : p <> e) by (intro E; subst; congruence).
  assert (Hwf' : wf_store (without e s)) by (apply wf_without; exact Hwf).
  assert (Hp' : In p (rows (without e s)))
    by (apply in_without; assumption).
  assert (Hglob : lookup (mkFilter (Is u) IsNull) (without e s) = Some p).
  { apply lookup_unique; try assumption. rewrite Hpg. reflexivity. }
  assert (Hgone : lookup (mkFilter (Is u) (Is g)) (without e s) = None)
    by (apply lookup_without_same; assumption).
  assert (Hres : resolve_time (Some u) (Some g) (without e s) = Some p).
  { unfold resolve_time. rewrite (tier_pair u g Hu Hg), (tier_global u Hu).
    rewrite Hgone, (truthy_of u Hu). exact Hglob. }
  split.
  { rewrite (check_ban_time_resolve now1 _ _ s (Hid (Some g))).
    unfold resolve_time. rewrite (tier_pair u g Hu Hg), Hpair.
    apply Z.eqb_neq in Hed. rewrite Hed.
    assert (Hge : Qltb (now1 - deadline e) 0 = false)
      by (apply Qltb_ge; lra).
    rewrite Hge. reflexivity. }
  split; [apply not_in_without|].
  split; [exact Hp'|].
  split; [exact Hres|].
  split.
  { rewrite (check_ban_time_resolve now2 _ _ _ (Hid (Some g))).
    rewrite (check_ban_time_resolve now2 _ _ _ (Hid None)).
    rewrite Hres. unfold resolve_time.
    rewrite (tier_global u Hu), Hglob. reflexivity. }
  split.
  - apply (check_ban_time_permanent now2 _ _ _ p (Hid (Some g)) Hres).
  - apply (check_ban_time_active now2 _ _ _ p (Hid (Some g)) Hres).
Qed.

Lemma expired_pair_hides_global_witness :
  wf_store store_both /\ (deadline row_u1_g1 <= 3700#1)%Q
  /\ check_ban_time (3700#1) (Some "u1") (Some "g1") store_both
     = (Return 0, store_global)
  /\ check_ban_time (3701#1) (Some "u1") (Some "g1") store_global
     = (Return (-1), store_global).
Proof.
  assert (Hexp : (deadline row_u1_g1 <= 3700#1)%Q)
    by (vm_compute; discriminate).
  destruct (expired_pair_hides_global (3700#1) (3701#1) "u1" "g1"
              store_both row_u1_g1 row_u1_global)
    as [H1 [_ [_ [_ [_ [H6 _]]]]]];
    try (discriminate || reflexivity || exact wf_store_both || exact Hexp).
  - left. reflexivity.
  - right. left. reflexivity.
  - split; [exact wf_store_both|]. split; [exact Hexp|].
    split; [exact H1 | exact (H6 eq_refl)].
Defined.

(** ** Lifting a ban *)

(** C7. On a well-formed table and with an identity given, [unban] deletes
    the record of the tier and returns true when there is one, and returns
    false with the table as it was when there is none; whatever the first
    call returned, a second call right after it returns false and changes
    nothing. *)
Theorem unban_idempotent (u g : option string) (s : Store) :
  wf_store s -> truthy u || truthy g = true ->
  match lookup (tier u g) s with
  | Some r => unban u g s = (Return true, without r s)
              /\ ~ In r (rows (without r s))
  | None => unban u g s = (Return false, s)
  end
  /\ exists b s', unban u g s = (Return b, s')
                  /\ unban u g s' = (Return false, s').
Proof.
  intros Hwf Hid. rewrite (unban_given u g s Hid).
  destruct (lookup (tier u g) s) as [r|] eqn:E.
  - split; [split; [reflexivity|apply not_in_without]|].
    exists true, (without r s). split; [reflexivity|].
    rewrite (unban_given u g _ Hid).
    rewrite (lookup_tier_without u g s r Hwf E). reflexivity.
  - split; [reflexivity|]. exists false, s. split; [reflexivity|].
    rewrite (unban_given u g s Hid), E. reflexivity.
Qed.

Lemma unban_idempotent_witness :
  wf_store store_both /\ truthy (Some "u1") || truthy (Some "g1") = true
  /\ unban (Some "u1") (Some "g1") store_both = (Return true, store_global)
  /\ unban (Some "u1") (Some "g1") store_global
     = (Return false, store_global).
Proof.
  destruct (unban_idempotent (Some "u1") (Some "g1") store_both
              wf_store_both eq_refl) as [H1 [b [s' [H2 H3]]]].
  simpl in H1. destruct H1 as [H1 _].
  split; [exact wf_store_both|]. split; [reflexivity|].
  split; [exact H1|].
  rewrite H1 in H2. inversion H2. subst s'. exact H3.
Defined.

(** ** Placing a ban *)

Lemma ban_given (now : Q) (u g : option string) (level : Z)
    (reason : option string) (dur : Z) (op : option string) (s : Store) :
  truthy u || truthy g = true ->
  ban now u g level reason dur op s =
  let s1 := after_replace u g s in
  if existsb (collide (unique_nulls_distinct s1)
                      (new_row s now u g level reason dur op)) (rows s1)
  then (Raise IntegrityError, s1)
  else (Return tt,
        mkStore (rows s1 ++ [new_row s now u g level reason dur op])
                (next_id s + 1) (unique_nulls_distinct s)).
Proof.
  intro Hid. unfold ban, bind, after_replace, new_row.
  rewrite (_get_data_given u g s Hid).
  destruct (lookup (tier u g) s) as [r|] eqn:E; simpl.
  - rewrite (unban_given u g s Hid), E. unfold ret, create. simpl.
    destruct (existsb _ _); reflexivity.
  - unfold ret, create. destruct (existsb _ _); reflexivity.
Qed.

(** [ban] amounts to [unban] followed by [ban]. *)
Lemma ban_after_unban (now : Q) (u g : option string) (level : Z)
    (reason : option string) (dur : Z) (op : option string) (s : Store) :
  wf_store s -> truthy u || truthy g = true ->
  ban now u g level reason dur op s
  = (unban u g ;; ban now u g level reason dur op) s.
Proof.
  intros Hwf Hid. unfold bind. rewrite (unban_given u g s Hid).
  destruct (lookup (tier u g) s) as [r|] eqn:E.
  - rewrite !(ban_given now u g level reason dur op _ Hid).
    unfold after_replace.
    rewrite E, (lookup_tier_without u g s r Hwf E). reflexivity.
  - reflexivity.
Qed.

Lemma after_replace_wf (u g : option string) (s : Store) :
  wf_store s -> wf_store (after_replace u g s).
Proof.
  intro Hwf. unfold after_replace.
  destruct (lookup (tier u g) s); [apply wf_without|]; exact Hwf.
Qed.

Lemma after_replace_empty (u g : option string) (s : Store) :
  wf_store s -> lookup (tier u g) (after_replace u g s) = None.
Proof.
  intro Hwf. unfold after_replace.
  destruct (lookup (tier u g) s) as [r|] eqn:E.
  - apply lookup_tier_without; assumption.
  - exact E.
Qed.

Lemma after_replace_next (u g : option string) (s : Store) :
  next_id (after_replace u g s) = next_id s
  /\ unique_nulls_distinct (after_replace u g s) = unique_nulls_distinct s.
Proof.
  unfold after_replace. destruct (lookup (tier u g) s); split; reflexivity.
Qed.

Lemma opt_eqb_eq (x y : option string) : opt_eqb x y = true <-> x = y.
Proof.
  destruct x as [a|], y as [b|]; simpl; split; try discriminate;
    try reflexivity.
  - intro H. apply String.eqb_eq in H. congruence.
  - intro H. inversion H. apply String.eqb_refl.
Qed.

(** A row appended under a fresh primary key keeps the table well formed
    when no row with a user shares its key. *)
Lemma wf_append (s : Store) (r : BanConsole) :
  wf_store s -> id r = next_id s ->
  (forall x, In x (rows s) -> user_id x <> None ->
             ~ (user_id x = user_id r /\ group_id x = group_id r)) ->
  wf_store (mkStore (rows s ++ [r]) (next_id s + 1)
                    (unique_nulls_distinct s)).
Proof.
  intros [Hi Hf Hk] Hid Hnew. constructor; simpl.
  - rewrite map_app. simpl.
    assert (Hfresh : ~ In (id r) (map id (rows s))).
    { intro Hin. apply in_map_iff in Hin. destruct Hin as [x [Ex Hx]].
      rewrite Forall_forall in Hf. specialize (Hf x Hx). lia. }
    clear - Hi Hfresh. induction (rows s) as [|a l IH]; simpl.
    + constructor; [intros []|constructor].
    + inversion Hi as [|? ? Ha Hl]; subst. constructor.
      * rewrite in_app_iff. simpl. intros [H|[H|[]]]; [contradiction|].
        apply Hfresh. left. symmetry. exact H.
      * apply IH; [exact Hl|]. intro H. apply Hfresh. right. exact H.
  - rewrite Forall_forall in *. intros x Hx. apply in_app_iff in Hx.
    destruct Hx as [Hx|[<-|[]]]; [specialize (Hf x Hx)|]; lia.
  - intros r1 r2 H1 H2 Hu Eu Eg. apply in_app_iff in H1, H2.
    destruct H1 as [H1|[<-|[]]], H2 as [H2|[<-|[]]].
    + apply Hk; assumption.
    + exfalso. apply (Hnew r1 H1 Hu). split; assumption.
    + exfalso. apply (Hnew r2 H2); [congruence|]. split; congruence.
    + reflexivity.
Qed.

Lemma existsb_false {A} (p : A -> bool) (l : list A) :
  existsb p l = false -> forall x, In x l -> p x = false.
Proof.
  intros H x Hx. destruct (p x) eqn:E; [|reflexivity].
  rewrite <- H. symmetry. apply existsb_exists. exists x. auto.
Qed.

(** In the table [ban] creates in, no user-scoped row has the key of the
    new row, unless the database refuses the creation. *)
Lemma after_replace_free (u g : option string) (s : Store) (r : BanConsole) :
  wf_store s -> truthy u || truthy g = true ->
  user_id r = u -> group_id r = g ->
  existsb (collide (unique_nulls_distinct (after_replace u g s)) r)
          (rows (after_replace u g s)) = false ->
  forall x, In x (rows (after_replace u g s)) -> user_id x <> None ->
            ~ (user_id x = user_id r /\ group_id x = group_id r).
Proof.
  intros Hwf Hid Hu Hg Hex x Hx Hxu [Eu Eg]. subst u g.
  pose proof (existsb_false _ _ Hex x Hx) as Hc.
  pose proof (after_replace_empty (user_id r) (group_id r) s Hwf) as Hnone.
  rewrite lookup_None in Hnone. specialize (Hnone x Hx).
  unfold collide in Hc. rewrite <- Eu, <- Eg in Hc, Hnone, Hid.
  rewrite !(proj2 (opt_eqb_eq _ _) eq_refl) in Hc. simpl in Hc.
  destruct (user_id x) as [v|] eqn:Exu; [|congruence].
  destruct (group_id x) as [w|] eqn:Exg.
  - rewrite orb_true_r in Hc. discriminate.
  - destruct (truthy (Some v)) eqn:Ht; [|discriminate Hid].
    unfold tier in Hnone. rewrite Ht in Hnone. simpl in Hnone.
    unfold matches in Hnone. simpl in Hnone.
    rewrite Exu, Exg in Hnone. simpl in Hnone.
    rewrite String.eqb_refl in Hnone. discriminate.
Qed.

(** [ban] keeps the table well formed, whether it returns or raises. *)
Lemma ban_wf (now : Q) (u g : option string) (level : Z)
    (reason : option string) (dur : Z) (op : option string) (s : Store) :
  wf_store s -> wf_store (snd (ban now u g level reason dur op s)).
Proof.
  intro Hwf. destruct (truthy u || truthy g) eqn:Hid.
  - rewrite (ban_given now u g level reason dur op s Hid). cbv zeta.
    pose proof (after_replace_wf u g s Hwf) as Hwf1.
    destruct (after_replace_next u g s) as [Hn Hd].
    destruct (existsb _ _) eqn:Hex; simpl; [exact Hwf1|].
    rewrite <- Hn, <- Hd. apply wf_append; [exact Hwf1|simpl; congruence|].
    apply (after_replace_free u g s _ Hwf Hid); [reflexivity..|exact Hex].
  - apply orb_false_iff in Hid. destruct Hid as [Hu Hg].
    unfold ban, bind. rewrite (_get_data_unset u g s Hu Hg). exact Hwf.
Qed.

Lemma unban_wf (u g : option string) (s : Store) :
  wf_store s -> wf_store (snd (unban u g s)).
Proof.
  intro Hwf. destruct (truthy u || truthy g) eqn:Hid.
  - rewrite (unban_given u g s Hid).
    destruct (lookup (tier u g) s); [apply wf_without|]; exact Hwf.
  - apply orb_false_iff in Hid. destruct Hid as [Hu Hg].
    unfold unban, bind. rewrite (_get_data_unset u g s Hu Hg). exact Hwf.
Qed.

Lemma check_ban_time_wf (now : Q) (u g : option string) (s : Store) :
  wf_store s -> wf_store (snd (check_ban_time now u g s)).
Proof.
  intro Hwf.
  destruct (check_ban_time_store now u g s) as [E|[r [_ [_ E]]]];
    rewrite E; [|apply wf_without]; exact Hwf.
Qed.

Lemma is_ban_wf (now : Q) (u g : option string) (s : Store) :
  wf_store s -> wf_store (snd (is_ban now u g s)).
Proof.
  intro Hwf. unfold is_ban, bind.
  pose proof (check_ban_time_wf now u g s Hwf) as H1.
  destruct (check_ban_time now u g s) as [[t|e] s1]; simpl in *;
    [|exact H1].
  destruct (negb (t =? 0)); [exact H1|].
  pose proof (unban_wf u g s1 H1) as H2.
  destruct (unban u g s1) as [[b|e] s2]; exact H2.
Qed.

(** Every table the registry reaches from the empty one is well formed. *)
Lemma reachable_wf (nd : bool) (s : Store) : reachable nd s -> wf_store s.
Proof.
  induction 1 as [|c s _ IH]; [apply wf_empty|].
  destruct c; simpl.
  - apply ban_wf; exact IH.
  - apply unban_wf; exact IH.
  - apply check_ban_time_wf; exact IH.
  - rewrite check_ban_level_store. exact IH.
  - apply is_ban_wf; exact IH.
  - rewrite get_ban_store. exact IH.
Qed.

Lemma filter_none {A} (p : A -> bool) (l : list A) :
  (forall x, In x l -> p x = false) -> filter p l = [].
Proof.
  induction l as [|a l IH]; simpl; intro H; [reflexivity|].
  rewrite (H a) by (left; reflexivity).
  apply IH. intros x Hx. apply H. right. exact Hx.
Qed.

(** A key that [_get_data] reads back as it was written: the user is not
    NULL and the group is not the empty string. *)
Lemma same_key_matches (u g : option string) (x : BanConsole) :
  truthy u || truthy g = true -> u <> None -> g <> Some "" ->
  same_key u g x = true -> matches (tier u g) x = true.
Proof.
  intros Hid Hu Hg Hk. unfold same_key in Hk.
  apply andb_true_iff in Hk. destruct Hk as [Eu Eg].
  apply opt_eqb_eq in Eu, Eg. unfold tier, matches.
  destruct u as [v|]; [|congruence].
  destruct (truthy (Some v)) eqn:Ht.
  - destruct g as [w|].
    + destruct (truthy (Some w)) eqn:Hw; simpl.
      * rewrite Eu, Eg. simpl. rewrite !String.eqb_refl. reflexivity.
      * exfalso. apply Hg. simpl in Hw. apply negb_false_iff in Hw.
        apply String.eqb_eq in Hw. congruence.
    + simpl. rewrite Eu, Eg. simpl. rewrite String.eqb_refl. reflexivity.
  - simpl in Hid. simpl in Ht.
    apply negb_false_iff in Ht. apply String.eqb_eq in Ht. subst v.
    destruct g as [w|]; [|discriminate]. simpl.
    rewrite Eu, Eg. simpl. rewrite String.eqb_refl. reflexivity.
Qed.

(** [ban] on such a key returns, and leaves the row it wrote as the one row
    of the key. *)
Lemma ban_replaces (now : Q) (u g : option string) (level : Z)
    (reason : option string) (dur : Z) (op : option string) (s : Store) :
  wf_store s -> truthy u || truthy g = true -> u <> None -> g <> Some "" ->
  exists s',
    ban now u g level reason dur op s = (Return tt, s')
    /\ rows s' = (rows (after_replace u g s)
                  ++ [new_row s now u g level reason dur op])%list
    /\ next_id s' = next_id s + 1
    /\ rows_for u g s' = [new_row s now u g level reason dur op].
Proof.
  intros Hwf Hid Hu Hg.
  assert (Hfree : forall x, In x (rows (after_replace u g s)) ->
                            same_key u g x = false).
  { intros x Hx. destruct (same_key u g x) eqn:E; [|reflexivity].
    pose proof (after_replace_empty u g s Hwf) as Hnone.
    rewrite lookup_None in Hnone.
    specialize (Hnone x Hx).
    rewrite (same_key_matches u g x Hid Hu Hg E) in Hnone.
    discriminate. }
  rewrite (ban_given now u g level reason dur op s Hid). cbv zeta.
  destruct (existsb _ _) eqn:Hex.
  - exfalso. apply existsb_exists in Hex. destruct Hex as [x [Hx Hc]].
    specialize (Hfree x Hx). unfold collide in Hc. simpl in Hc.
    unfold same_key in Hfree.
    apply andb_true_iff in Hc. destruct Hc as [Hc _].
    apply andb_true_iff in Hc. destruct Hc as [Eu Eg].
    apply opt_eqb_eq in Eu, Eg. rewrite <- Eu, <- Eg in Hfree.
    rewrite !(proj2 (opt_eqb_eq _ _) eq_refl) in Hfree. discriminate.
  - eexists. split; [reflexivity|]. simpl.
    split; [reflexivity|]. split; [reflexivity|].
    unfold rows_for. simpl. rewrite filter_app. simpl.
    unfold same_key at 2. simpl.
    rewrite !(proj2 (opt_eqb_eq _ _) eq_refl). simpl.
    rewrite (filter_none _ _ Hfree). reflexivity.
Qed.

(** Two calls of [ban] on a key that is read back as written: both return,
    the key ends with one row, the row of the second call with its fields
    and with ban_time the whole seconds of the second clock reading, and
    the table is the one that [unban] followed by the second [ban] yields. *)
Lemma ban_twice_user_key (now1 now2 : Q) (u g : option string)
    (l1 l2 : Z) (r1 r2 : option string) (d1 d2 : Z) (o1 o2 : option string)
    (s : Store) :
  wf_store s -> truthy u || truthy g = true -> u <> None -> g <> Some "" ->
  exists s1 s2,
    ban now1 u g l1 r1 d1 o1 s = (Return tt, s1)
    /\ ban now2 u g l2 r2 d2 o2 s1 = (Return tt, s2)
    /\ rows_for u g s2
       = [mkBanConsole (next_id s + 1) u g l2 (py_int now2) r2 d2
                       (operator_or_0 o2)]
    /\ (unban u g ;; ban now2 u g l2 r2 d2 o2) s1 = (Return tt, s2).
Proof.
  intros Hwf Hid Hu Hg.
  destruct (ban_replaces now1 u g l1 r1 d1 o1 s Hwf Hid Hu Hg)
    as [s1 [E1 [_ [Hn1 _]]]].
  assert (Hwf1 : wf_store s1).
  { pose proof (ban_wf now1 u g l1 r1 d1 o1 s Hwf) as H.
    rewrite E1 in H. exact H. }
  destruct (ban_replaces now2 u g l2 r2 d2 o2 s1 Hwf1 Hid Hu Hg)
    as [s2 [E2 [_ [_ Hrows]]]].
  exists s1, s2. split; [exact E1|]. split; [exact E2|].
  split.
  - rewrite Hrows. unfold new_row. rewrite Hn1. reflexivity.
  - rewrite <- (ban_after_unban now2 u g l2 r2 d2 o2 s1 Hwf1 Hid).
    exact E2.
Qed.

(** ** Two bans of a group *)

(** C2 at the key (None, "g1"), the ban of a whole group. [ban] stores
    user_id NULL while [_get_data] looks for user_id = "", so the second call
    does not see the row of the first: where NULLs do not collide the table
    ends with two rows under the key, and where they do the second call
    raises and the row of the first call stays. In both cases [unban] finds
    nothing to lift and [check_ban_time] reports 0. *)
Theorem ban_twice_group_key :
  let first := ban (100#1) None (Some "g1") 3 (Some "raid") (-1)
                   (Some "admin") in
  let second := ban (200#1) None (Some "g1") 5 (Some "flood") 60
                    (Some "root") in
  let row1 := mkBanConsole 1 None (Some "g1") 3 100 (Some "raid") (-1)
                           "admin" in
  let row2 := mkBanConsole 2 None (Some "g1") 5 200 (Some "flood") 60
                           "root" in
  (first ;; second) (empty_store true)
  = (Return tt, mkStore [row1; row2] 3 true)
  /\ rows_for None (Some "g1") (mkStore [row1; row2] 3 true) = [row1; row2]
  /\ (first ;; second) (empty_store false)
     = (Raise IntegrityError, mkStore [row1] 2 false)
  /\ (forall nd, unban None (Some "g1") (mkStore [row1] 2 nd)
                 = (Return false, mkStore [row1] 2 nd))
  /\ (forall nd now, check_ban_time now None (Some "g1") (mkStore [row1] 2 nd)
                     = (Return 0, mkStore [row1] 2 nd)).
Proof.
  cbv zeta. repeat split; intros; reflexivity.
Qed.

(** ** Scenarios *)

(** A ban of 60 seconds placed at second 100: thirty seconds later 30 whole
    seconds are left; an hour later the record is deleted on the read. *)
Example scenario_timed_ban :
  after (CallBan (100#1) (Some "u1") (Some "g1") 5 (Some "spam") 60
                 (Some "admin")) (empty_store true) = store_pair
  /\ check_ban_time (130#1) (Some "u1") (Some "g1") store_pair
     = (Return 30, store_pair)
  /\ check_ban_time (3700#1) (Some "u1") (Some "g1") store_pair
     = (Return 0, mkStore [] 2 true).
Proof. repeat split; reflexivity. Qed.

(** One second and a half before the deadline the result is 1. *)
Example scenario_whole_seconds :
  check_ban_time (317#2) (Some "u1") (Some "g1") store_pair
  = (Return 1, store_pair).
Proof. reflexivity. Qed.

(** Half a second before the deadline [check_ban_time] returns 0 with the
    record in place, and [is_ban] lifts the ban. *)
Example scenario_last_second :
  check_ban_time (319#2) (Some "u1") (Some "g1") store_pair
  = (Return 0, store_pair)
  /\ is_ban (319#2) (Some "u1") (Some "g1") store_pair
     = (Return false, mkStore [] 2 true).
Proof. split; reflexivity. Qed.

(** A global ban answers for a group that has no record of its own. *)
Example scenario_global_ban :
  check_ban_time (130#1) (Some "u1") (Some "g9") store_global
  = (Return (-1), store_global)
  /\ is_ban (130#1) (Some "u1") (Some "g9") store_global
     = (Return true, store_global).
Proof. split; reflexivity. Qed.

(** * Further properties of the registry *)

(** ** What a call does to the table *)

Lemma wf_store_blank : wf_store store_blank.
Proof. wf_concrete. Qed.

Lemma lookup_tier_resolvable (u g : option string) (s : Store)
    (x : BanConsole) :
  truthy u || truthy g = true -> lookup (tier u g) s = Some x ->
  resolvable x = true.
Proof.
  intros Hid H. apply lookup_Some in H. destruct H as [_ Hm].
  unfold tier in Hm. unfold resolvable.
  destruct (truthy u) eqn:Eu.
  - apply truthy_Some in Eu. destruct Eu as [v [-> Hv]].
    destruct (truthy g) eqn:Eg.
    + apply truthy_Some in Eg. destruct Eg as [w [-> Hw]].
      apply matches_iff in Hm. destruct Hm as [Hu Hg].
      apply (holds_as_cond (Some v)) in Hu.
      apply (holds_as_cond (Some w)) in Hg. rewrite Hu, Hg.
      destruct (String.eqb_spec w ""); [contradiction|reflexivity].
    + apply matches_iff in Hm. destruct Hm as [Hu Hg].
      apply (holds_as_cond (Some v)) in Hu.
      apply (holds_as_cond None) in Hg. rewrite Hu, Hg.
      destruct (String.eqb_spec v ""); [contradiction|reflexivity].
  - simpl in Hid. apply truthy_Some in Hid. destruct Hid as [w [-> Hw]].
    apply matches_iff in Hm. destruct Hm as [Hu Hg].
    apply (holds_as_cond (Some "")) in Hu.
    apply (holds_as_cond (Some w)) in Hg. rewrite Hu, Hg.
    destruct (String.eqb_spec w ""); [contradiction|reflexivity].
Qed.

Lemma resolve_time_resolvable (u g : option string) (s : Store)
    (x : BanConsole) :
  truthy u || truthy g = true -> resolve_time u g s = Some x ->
  resolvable x = true.
Proof.
  intros Hid. unfold resolve_time.
  destruct (lookup (tier u g) s) as [r|] eqn:E.
  - intro H. inversion H. subst.
    apply (lookup_tier_resolvable u g s x Hid E).
  - destruct (truthy u) eqn:Eu; [|discriminate].
    apply lookup_tier_resolvable. rewrite Eu. reflexivity.
Qed.

(** The row of a well-formed table that satisfies the filter of a tier is
    the one the tier designates. *)
Lemma lookup_tier_unique (u g : option string) (s : Store) (r : BanConsole) :
  wf_store s -> In r (rows s) -> matches (tier u g) r = true ->
  lookup (tier u g) s = Some r.
Proof.
  intros Hwf Hin Hm. destruct (tier_user u g) as [v [cg E]].
  rewrite E in *. apply matches_iff in Hm. destruct Hm as [Hu Hg].
  apply lookup_unique; try assumption.
  destruct (user_id r) as [w|]; [|discriminate].
  simpl in Hu. apply String.eqb_eq in Hu. congruence.
Qed.

(** The table after [is_ban]: untouched, or short of the timed record that
    the identity resolved. *)
Lemma is_ban_store (now : Q) (u g : option string) (s : Store) :
  wf_store s ->
  snd (is_ban now u g s) = s
  \/ exists r, resolve_time u g s = Some r /\ duration r <> -1
               /\ is_ban now u g s = (Return false, without r s).
Proof.
  intro Hwf. destruct (truthy u || truthy g) eqn:Hid.
  2:{ apply orb_false_iff in Hid. destruct Hid as [Hu Hg].
      left. unfold is_ban, check_ban_time, bind.
      rewrite (_get_data_unset u g s Hu Hg). reflexivity. }
  assert (Hun : forall s', unban u g s' =
                          match lookup (tier u g) s' with
                          | Some r => (Return true, without r s')
                          | None => (Return false, s')
                          end)
    by (intro s'; apply unban_given; exact Hid).
  unfold is_ban, bind.
  rewrite (check_ban_time_resolve now u g s Hid). unfold resolve_time.
  destruct (lookup (tier u g) s) as [r|] eqn:E.
  - destruct (Z.eqb_spec (duration r) (-1)) as [Ed|Ed];
      [left; reflexivity|].
    destruct (Qltb _ 0).
    + destruct (negb (_ =? 0)); [left; reflexivity|].
      rewrite Hun, E. right. exists r. auto.
    + simpl. rewrite Hun, (lookup_tier_without u g s r Hwf E).
      right. exists r. auto.
  - destruct (truthy u) eqn:Eu.
    + destruct (lookup (tier u None) s) as [r|] eqn:E2.
      * destruct (Z.eqb_spec (duration r) (-1)) as [Ed|Ed];
          [left; reflexivity|].
        destruct (Qltb _ 0).
        -- destruct (negb (_ =? 0)); [left; reflexivity|].
           rewrite Hun, E. left. reflexivity.
        -- simpl. rewrite Hun, (lookup_without_none _ s r E).
           right. exists r. auto.
      * simpl. rewrite Hun, E. left. reflexivity.
    + simpl. rewrite Hun, E. left. reflexivity.
Qed.

(** One call: at most one row leaves the table, a row that the identity of
    the call resolves, and at most one row enters it, under the next primary
    key. *)
Lemma after_cases (c : call) (s : Store) :
  wf_store s ->
  exists base,
    (base = s \/ exists r, In r (rows s) /\ resolvable r = true
                           /\ base = without r s)
    /\ (after c s = base
        \/ exists n, id n = next_id s
                     /\ after c s = mkStore (rows base ++ [n])
                                            (next_id s + 1)
                                            (unique_nulls_distinct s)).
Proof.
  intro Hwf. destruct c as [now u g lv rs d op|u g|now u g|u g lv|now u g|i u g];
    simpl.
  - destruct (truthy u || truthy g) eqn:Hid.
    + exists (after_replace u g s). split.
      * unfold after_replace.
        destruct (lookup (tier u g) s) as [r|] eqn:E; [|left; reflexivity].
        right. exists r. split; [apply (lookup_Some _ _ _ E)|].
        split; [apply (lookup_tier_resolvable u g s r Hid E)|reflexivity].
      * rewrite (ban_given now u g lv rs d op s Hid). cbv zeta.
        destruct (existsb _ _); simpl; [left; reflexivity|].
        right. eexists. split; [|reflexivity]. reflexivity.
    + apply orb_false_iff in Hid. destruct Hid as [Hu Hg].
      exists s. split; [left; reflexivity|]. left.
      unfold ban, bind. rewrite (_get_data_unset u g s Hu Hg). reflexivity.
  - destruct (truthy u || truthy g) eqn:Hid.
    + rewrite (unban_given u g s Hid).
      destruct (lookup (tier u g) s) as [r|] eqn:E.
      * exists (without r s). split; [|left; reflexivity].
        right. exists r. split; [apply (lookup_Some _ _ _ E)|].
        split; [apply (lookup_tier_resolvable u g s r Hid E)|reflexivity].
      * exists s. split; left; reflexivity.
    + apply orb_false_iff in Hid. destruct Hid as [Hu Hg].
      exists s. split; [left; reflexivity|]. left.
      unfold unban, bind. rewrite (_get_data_unset u g s Hu Hg). reflexivity.
  - destruct (check_ban_time_store now u g s) as [E|[r [Hr [Hn E]]]].
    + exists s. split; left; [reflexivity|exact E].
    + exists (without r s). split; [|left; rewrite E; reflexivity].
      right. exists r. split; [apply (resolve_time_In _ _ _ _ Hr)|].
      split; [|reflexivity].
      destruct (truthy u || truthy g) eqn:Hid;
        [apply (resolve_time_resolvable u g s r Hid Hr)|].
      exfalso. apply orb_false_iff in Hid. destruct Hid as [Hu Hg].
      unfold check_ban_time, bind in E.
      rewrite (_get_data_unset u g s Hu Hg) in E. discriminate.
  - exists s. split; left; [reflexivity|apply check_ban_level_store].
  - destruct (is_ban_store now u g s Hwf) as [E|[r [Hr [Hn E]]]].
    + exists s. split; left; [reflexivity|exact E].
    + exists (without r s). split; [|left; rewrite E; reflexivity].
      right. exists r. split; [apply (resolve_time_In _ _ _ _ Hr)|].
      split; [|reflexivity].
      destruct (truthy u || truthy g) eqn:Hid;
        [apply (resolve_time_resolvable u g s r Hid Hr)|].
      exfalso. apply orb_false_iff in Hid. destruct Hid as [Hu Hg].
      unfold is_ban, check_ban_time, bind in E.
      rewrite (_get_data_unset u g s Hu Hg) in E. discriminate.
  - exists s. split; left; [reflexivity|apply get_ban_store].
Qed.

Lemma after_wf (c : call) (s : Store) : wf_store s -> wf_store (after c s).
Proof.
  intro Hwf. destruct c; simpl.
  - apply ban_wf; exact Hwf.
  - apply unban_wf; exact Hwf.
  - apply check_ban_time_wf; exact Hwf.
  - rewrite check_ban_level_store. exact Hwf.
  - apply is_ban_wf; exact Hwf.
  - rewrite get_ban_store. exact Hwf.
Qed.

Lemma resolvable_matches (r : BanConsole) :
  resolvable r = true ->
  truthy (user_id r) || truthy (group_id r) = true
  /\ matches (tier (user_id r) (group_id r)) r = true.
Proof.
  unfold resolvable. intro H.
  assert (Hid : truthy (user_id r) || truthy (group_id r) = true).
  { destruct (user_id r) as [v|], (group_id r) as [w|]; simpl in *;
      try discriminate; rewrite H; auto using orb_true_r. }
  split; [exact Hid|].
  apply same_key_matches; try assumption.
  - destruct (user_id r); [discriminate|discriminate H].
  - intro E. rewrite E in H. destruct (user_id r); discriminate H.
  - unfold same_key. rewrite !(proj2 (opt_eqb_eq _ _) eq_refl). reflexivity.
Qed.

Lemma in_base (s base : Store) (r : BanConsole) :
  wf_store s -> In r (rows s) -> resolvable r = false ->
  base = s \/ (exists x, In x (rows s) /\ resolvable x = true
                         /\ base = without x s) ->
  In r (rows base).
Proof.
  intros Hwf Hin Hr [->|[x [Hx [Hrx ->]]]]; [exact Hin|].
  apply in_without; try assumption. intro E. subst. congruence.
Qed.

(** ** Rows and their keys *)

(** X1. In a well-formed table, a row whose key has a user that is not NULL
    and a group that is not the empty string (and, for a NULL group, a user
    that is not empty) is what [get_ban] returns for the row's own user_id
    and group_id; any other row is returned by [get_ban] for no identity at
    all. *)
Theorem get_ban_own_key (s : Store) (r : BanConsole) :
  wf_store s -> In r (rows s) ->
  (resolvable r = true ->
   get_ban None (user_id r) (group_id r) s = (Return (Some r), s))
  /\ (resolvable r = false ->
      forall u g, fst (get_ban None u g s) <> Return (Some r)).
Proof.
  intros Hwf Hin. split.
  - intro Hr. destruct (resolvable_matches r Hr) as [Hid Hm]. simpl.
    rewrite (_get_data_given _ _ s Hid).
    rewrite (lookup_tier_unique _ _ s r Hwf Hin Hm). reflexivity.
  - intros Hr u g. simpl. destruct (truthy u || truthy g) eqn:Hid.
    + rewrite (_get_data_given u g s Hid). simpl. intro E.
      inversion E as [E']. 
      rewrite (lookup_tier_resolvable u g s r Hid E') in Hr. discriminate.
    + apply orb_false_iff in Hid. destruct Hid as [Hu Hg].
      rewrite (_get_data_unset u g s Hu Hg). discriminate.
Qed.

Lemma get_ban_own_key_witness :
  wf_store store_blank /\ In row_u1_global (rows store_blank)
  /\ In row_g1_null (rows store_blank)
  /\ get_ban None (Some "u1") None store_blank
     = (Return (Some row_u1_global), store_blank)
  /\ fst (get_ban None None (Some "g1") store_blank)
     <> Return (Some row_g1_null).
Proof.
  assert (H1 : In row_u1_global (rows store_blank)) by (left; reflexivity).
  assert (H2 : In row_g1_null (rows store_blank))
    by (right; right; left; reflexivity).
  split; [exact wf_store_blank|]. split; [exact H1|]. split; [exact H2|].
  split.
  - apply (get_ban_own_key store_blank row_u1_global wf_store_blank H1).
    reflexivity.
  - apply (get_ban_own_key store_blank row_g1_null wf_store_blank H2).
    reflexivity.
Defined.

(** X2. A row of a well-formed table with user_id NULL, or with group_id
    the empty string, or with an empty user_id and a NULL group, is still in
    the table after any sequence of calls of [ban], [unban],
    [check_ban_time], [check_ban_level], [is_ban] and [get_ban]: no call
    lifts it, replaces it or lets it expire. *)
Theorem unresolvable_row_stays (cs : list call) (s : Store)
    (r : BanConsole) :
  wf_store s -> In r (rows s) -> resolvable r = false ->
  In r (rows (after_all cs s)).
Proof.
  revert s. induction cs as [|c cs IH]; intros s Hwf Hin Hr; [exact Hin|].
  simpl. apply IH; [apply after_wf; exact Hwf| |exact Hr].
  destruct (after_cases c s Hwf) as [base [Hb [E|[n [_ E]]]]];
    pose proof (in_base s base r Hwf Hin Hr Hb) as Hbase; rewrite E.
  - exact Hbase.
  - simpl. apply in_or_app. left. exact Hbase.
Qed.

Lemma unresolvable_row_stays_witness :
  wf_store store_blank /\ In row_g1_null (rows store_blank)
  /\ resolvable row_g1_null = false
  /\ In row_g1_null
        (rows (after_all
                 [CallUnban None (Some "g1");
                  CallIsBan (100000#1) None (Some "g1");
                  CallBan (200#1) None (Some "g1") 9 None 60 None;
                  CallUnban (Some "") (Some "g1")]
                 store_blank)).
Proof.
  assert (H2 : In row_g1_null (rows store_blank))
    by (right; right; left; reflexivity).
  split; [exact wf_store_blank|]. split; [exact H2|].
  split; [reflexivity|].
  apply unresolvable_row_stays; [exact wf_store_blank|exact H2|reflexivity].
Defined.

(** X3. One call on a well-formed table never alters a row in place: every
    row of the table after the call was there before, or carries the primary
    key that was next; at most one row leaves the table; and the counter of
    primary keys stays or goes up by one. *)
Theorem call_keeps_rows_intact (c : call) (s : Store) :
  wf_store s ->
  (forall x, In x (rows (after c s)) -> In x (rows s) \/ id x = next_id s)
  /\ (forall x y, In x (rows s) -> In y (rows s) ->
                  ~ In x (rows (after c s)) -> ~ In y (rows (after c s)) ->
                  x = y)
  /\ next_id s <= next_id (after c s) <= next_id s + 1.
Proof.
  intro Hwf.
  destruct (after_cases c s Hwf) as [base [Hb Ha]].
  assert (Hsub : forall x, In x (rows base) -> In x (rows s)).
  { destruct Hb as [->|[r [_ [_ ->]]]]; [auto|].
    intros x Hx. simpl in Hx. apply in_delete_rows in Hx. tauto. }
  assert (Hsup : forall x, In x (rows base) -> In x (rows (after c s))).
  { destruct Ha as [->|[n [_ ->]]]; [auto|].
    intros x Hx. simpl. apply in_or_app. left. exact Hx. }
  assert (Hn : next_id base = next_id s)
    by (destruct Hb as [->|[r [_ [_ ->]]]]; reflexivity).
  split; [|split].
  - intros x Hx. destruct Ha as [E|[n [Hid E]]]; rewrite E in Hx.
    + left. apply Hsub. exact Hx.
    + simpl in Hx. apply in_app_iff in Hx.
      destruct Hx as [Hx|[<-|[]]]; [left; apply Hsub; exact Hx|].
      right. exact Hid.
  - intros x y Hx Hy Nx Ny.
    destruct Hb as [->|[r [Hr [_ ->]]]].
    + exfalso. apply Nx. apply Hsup. exact Hx.
    + assert (Hgone : forall z, In z (rows s) ->
                ~ In z (rows (after c s)) -> z = r).
      { intros z Hz Nz.
        destruct (Z.eq_dec (id z) (id r)) as [E|E].
        - apply (NoDup_id_eq _ z r (wf_ids s Hwf) Hz Hr E).
        - exfalso. apply Nz. apply Hsup. simpl.
          apply in_delete_rows. tauto. }
      rewrite (Hgone x Hx Nx), (Hgone y Hy Ny). reflexivity.
  - destruct Ha as [->|[n [_ ->]]]; simpl; lia.
Qed.

Lemma call_keeps_rows_intact_witness :
  wf_store store_both
  /\ next_id store_both
     <= next_id (after (CallBan (200#1) (Some "u1") (Some "g1") 7 None 30
                                None) store_both)
     <= next_id store_both + 1.
Proof.
  split; [exact wf_store_both|].
  apply (call_keeps_rows_intact
           (CallBan (200#1) (Some "u1") (Some "g1") 7 None 30 None)
           store_both wf_store_both).
Defined.

(** ** Placing a ban, then reading it *)

Lemma py_int_above (q : Q) : (q < inject_Z (py_int q) + 1)%Q.
Proof.
  destruct q as [n p]. unfold py_int. simpl.
  setoid_replace (inject_Z (n ÷ Z.pos p) + 1)%Q
    with (inject_Z (n ÷ Z.pos p + 1)) by (rewrite inject_Z_plus; reflexivity).
  unfold Qlt, inject_Z. simpl.
  pose proof (Z.quot_rem' n (Z.pos p)) as E.
  pose proof (Z.rem_bound_abs n (Z.pos p) ltac:(lia)) as B.
  nia.
Qed.

(** On a key that is read back as written, the row of [ban] is the row the
    key designates afterwards. *)
Lemma ban_lookup (now : Q) (u g : option string) (level : Z)
    (reason : option string) (dur : Z) (op : option string) (s : Store) :
  wf_store s -> truthy u || truthy g = true -> u <> None -> g <> Some "" ->
  exists s',
    ban now u g level reason dur op s = (Return tt, s')
    /\ wf_store s'
    /\ lookup (tier u g) s' = Some (new_row s now u g level reason dur op)
    /\ rows_for u g s' = [new_row s now u g level reason dur op].
Proof.
  intros Hwf Hid Hu Hg.
  destruct (ban_replaces now u g level reason dur op s Hwf Hid Hu Hg)
    as [s' [E [Hrows [_ Hfor]]]].
  assert (Hwf' : wf_store s').
  { pose proof (ban_wf now u g level reason dur op s Hwf) as H.
    rewrite E in H. exact H. }
  exists s'. split; [exact E|]. split; [exact Hwf'|]. split; [|exact Hfor].
  apply lookup_tier_unique; [exact Hwf'| |].
  - rewrite Hrows. apply in_or_app. right. left. reflexivity.
  - apply same_key_matches; try assumption.
    unfold same_key, new_row. simpl.
    rewrite !(proj2 (opt_eqb_eq _ _) eq_refl). reflexivity.
Qed.

Ltac fits_concrete :=
  unfold fits_columns, int_field, big_int_field, char_field;
  repeat split; try (simpl; lia); vm_compute; congruence.

(** X4. [ban] on a well-formed table, with values that fit the columns, a
    user that is not None and a group that is not the empty string,
    returns; afterwards [get_ban] on the same identity returns the row just
    written (next primary key, the given level, reason and duration,
    ban_time the whole seconds of the clock, operator "0" when none is
    given), [check_ban_level] compares the level of that call, and no other
    row carries the key, whatever record was there before. *)
Theorem ban_then_get_ban (now : Q) (u g : option string) (level : Z)
    (reason : option string) (dur : Z) (op : option string) (s : Store) :
  wf_store s -> fits_columns s now u g level dur op ->
  truthy u || truthy g = true -> u <> None -> g <> Some "" ->
  exists s',
    ban now u g level reason dur op s = (Return tt, s')
    /\ get_ban None u g s'
       = (Return (Some (mkBanConsole (next_id s) u g level (py_int now)
                                     reason dur (operator_or_0 op))), s')
    /\ (forall lv, check_ban_level u g lv s' = (Return (level <=? lv), s'))
    /\ (forall x, In x (rows s') -> user_id x = u -> group_id x = g ->
                  id x = next_id s).
Proof.
  intros Hwf _ Hid Hu Hg.
  destruct (ban_lookup now u g level reason dur op s Hwf Hid Hu Hg)
    as [s' [E [Hwf' [Hl Hfor]]]].
  exists s'. split; [exact E|]. split; [|split].
  - simpl. rewrite (_get_data_given u g s' Hid), Hl. reflexivity.
  - intro lv. unfold check_ban_level, bind.
    rewrite (_get_data_given u g s' Hid), Hl. reflexivity.
  - intros x Hx Exu Exg.
    assert (Hin : In x (rows_for u g s')).
    { unfold rows_for. apply filter_In. split; [exact Hx|].
      unfold same_key. rewrite Exu, Exg.
      rewrite !(proj2 (opt_eqb_eq _ _) eq_refl). reflexivity. }
    rewrite Hfor in Hin. destruct Hin as [<-|[]]. reflexivity.
Qed.

Lemma ban_then_get_ban_witness :
  wf_store store_both
  /\ fits_columns store_both (200#1) (Some "u1") (Some "g1") 7 30 None
  /\ truthy (Some "u1") || truthy (Some "g1") = true
  /\ exists s',
      ban (200#1) (Some "u1") (Some "g1") 7 None 30 None store_both
      = (Return tt, s')
      /\ get_ban None (Some "u1") (Some "g1") s'
         = (Return (Some (mkBanConsole 3 (Some "u1") (Some "g1") 7 200 None
                                       30 "0")), s').
Proof.
  assert (Hfit : fits_columns store_both (200#1) (Some "u1") (Some "g1") 7 30
                              None) by fits_concrete.
  split; [exact wf_store_both|]. split; [exact Hfit|].
  split; [reflexivity|].
  destruct (ban_then_get_ban (200#1) (Some "u1") (Some "g1") 7 None 30 None
              store_both wf_store_both Hfit eq_refl)
    as [s' [E [Hg _]]]; try discriminate.
  exists s'. split; [exact E|exact Hg].
Defined.

(** X5. What the two exceptions of the registry say when [ban] raises them
    on a well-formed table, with values that fit the columns.
    [UserAndGroupIsNone]: user_id and group_id are
    both unset, and the table is untouched. [IntegrityError]: user_id is
    None or group_id is the empty string, a row is already stored under
    that very key, and the record that the identity resolved has been
    lifted by then and stays lifted. *)
Theorem ban_raises (now : Q) (u g : option string) (level : Z)
    (reason : option string) (dur : Z) (op : option string) (s s' : Store)
    (e : exn) :
  wf_store s -> fits_columns s now u g level dur op ->
  ban now u g level reason dur op s = (Raise e, s') ->
  match e with
  | UserAndGroupIsNone => truthy u = false /\ truthy g = false /\ s' = s
  | IntegrityError =>
      truthy u || truthy g = true
      /\ (u = None \/ g = Some "")
      /\ s' = after_replace u g s
      /\ exists x, In x (rows s') /\ user_id x = u /\ group_id x = g
  end.
Proof.
  intros Hwf _ E. destruct (truthy u || truthy g) eqn:Hid.
  - assert (Hkey : u = None \/ g = Some "").
    { destruct u as [v|]; [|left; reflexivity].
      destruct g as [w|].
      - destruct (String.eqb_spec w "") as [->|Hw]; [right; reflexivity|].
        exfalso.
        destruct (ban_replaces now (Some v) (Some w) level reason dur op s
                    Hwf Hid) as [s1 [E1 _]]; try congruence.
      - exfalso.
        destruct (ban_replaces now (Some v) None level reason dur op s
                    Hwf Hid) as [s1 [E1 _]]; congruence. }
    rewrite (ban_given now u g level reason dur op s Hid) in E.
    cbv zeta in E. destruct (existsb _ _) eqn:Hex; [|discriminate].
    inversion E. subst e s'. clear E.
    split; [reflexivity|]. split; [exact Hkey|]. split; [reflexivity|].
    apply existsb_exists in Hex. destruct Hex as [x [Hx Hc]].
    exists x. split; [exact Hx|].
    unfold collide, new_row in Hc. simpl in Hc.
    apply andb_true_iff in Hc. destruct Hc as [Hc _].
    apply andb_true_iff in Hc. destruct Hc as [Eu Eg].
    apply opt_eqb_eq in Eu, Eg. split; congruence.
  - apply orb_false_iff in Hid. destruct Hid as [Hu Hg].
    unfold ban, bind in E. rewrite (_get_data_unset u g s Hu Hg) in E.
    inversion E. auto.
Qed.

Lemma ban_raises_witness :
  wf_store store_blank
  /\ fits_columns store_blank (200#1) (Some "u1") (Some "") 7 30 None
  /\ ban (200#1) (Some "u1") (Some "") 7 None 30 None store_blank
     = (Raise IntegrityError, mkStore [row_u1_blank; row_g1_null] 5 true)
  /\ mkStore [row_u1_blank; row_g1_null] 5 true
     = after_replace (Some "u1") (Some "") store_blank.
Proof.
  assert (E : ban (200#1) (Some "u1") (Some "") 7 None 30 None store_blank
              = (Raise IntegrityError,
                 mkStore [row_u1_blank; row_g1_null] 5 true))
    by reflexivity.
  assert (Hfit : fits_columns store_blank (200#1) (Some "u1") (Some "") 7 30
                              None) by fits_concrete.
  split; [exact wf_store_blank|]. split; [exact Hfit|]. split; [exact E|].
  destruct (ban_raises _ _ _ _ _ _ _ _ _ _ wf_store_blank Hfit E)
    as [_ [_ [H _]]]. exact H.
Defined.

(** X6. A ban that is permanent, or that is placed for at least two
    seconds more than the time elapsed since, is reported: after [ban] on a
    well-formed table, with values that fit the columns and a key that is
    read back as written, [check_ban_time] on the same identity returns a
    value other than 0 and [is_ban] returns true, both leaving the table as
    [ban] left it. *)
Theorem ban_then_is_ban (now now2 : Q) (u g : option string) (level : Z)
    (reason : option string) (dur : Z) (op : option string) (s : Store) :
  wf_store s -> fits_columns s now u g level dur op ->
  truthy u || truthy g = true -> u <> None -> g <> Some "" ->
  dur = -1 \/ (now2 + 2 <= now + inject_Z dur)%Q ->
  exists s',
    ban now u g level reason dur op s = (Return tt, s')
    /\ (exists v, check_ban_time now2 u g s' = (Return v, s') /\ v <> 0)
    /\ is_ban now2 u g s' = (Return true, s').
Proof.
  intros Hwf _ Hid Hu Hg Hd.
  destruct (ban_lookup now u g level reason dur op s Hwf Hid Hu Hg)
    as [s' [E [Hwf' [Hl _]]]].
  assert (Hres : resolve_time u g s'
                 = Some (new_row s now u g level reason dur op))
    by (unfold resolve_time; rewrite Hl; reflexivity).
  assert (Hv : exists v, check_ban_time now2 u g s' = (Return v, s')
                         /\ v <> 0).
  { apply (check_ban_time_banned now2 u g s' _ Hid Hres).
    destruct Hd as [Hd|Hd]; [left; exact Hd|right].
    unfold deadline, new_row. simpl. rewrite inject_Z_plus.
    pose proof (py_int_above now). lra. }
  exists s'. split; [exact E|]. split; [exact Hv|].
  destruct Hv as [v [Ev Hv]]. unfold is_ban, bind. rewrite Ev.
  apply Z.eqb_neq in Hv. rewrite Hv. reflexivity.
Qed.

Lemma ban_then_is_ban_witness :
  wf_store store_both
  /\ fits_columns store_both (201#2) (Some "u1") (Some "g1") 7 2 None
  /\ ((201#2) + 2 <= (201#2) + inject_Z 2)%Q
  /\ exists s',
      ban (201#2) (Some "u1") (Some "g1") 7 None 2 None store_both
      = (Return tt, s')
      /\ is_ban (201#2) (Some "u1") (Some "g1") s' = (Return true, s').
Proof.
  assert (Hfit : fits_columns store_both (201#2) (Some "u1") (Some "g1") 7 2
                              None) by fits_concrete.
  assert (Hd : ((201#2) + 2 <= (201#2) + inject_Z 2)%Q)
    by (vm_compute; discriminate).
  split; [exact wf_store_both|]. split; [exact Hfit|]. split; [exact Hd|].
  destruct (ban_then_is_ban (201#2) (201#2) (Some "u1") (Some "g1") 7 None 2
              None store_both wf_store_both Hfit eq_refl)
    as [s' [E [_ Hb]]]; try discriminate.
  - right. exact Hd.
  - exists s'. split; [exact E|exact Hb].
Defined.

(** ** What [is_ban] answers *)

Lemma Qfloor_nonneg (x : Q) : (0 <= x)%Q -> 0 <= Qfloor x.
Proof.
  intro H. apply Qfloor_resp_le in H.
  change (Qfloor 0) with (Qfloor (inject_Z 0)) in H.
  rewrite Qfloor_Z in H. exact H.
Qed.

Lemma Qfloor_unit (x : Q) : (0 <= x)%Q -> (x < 1)%Q -> Qfloor x = 0.
Proof.
  intros H0 H1. pose proof (Qfloor_nonneg x H0) as Hn.
  destruct (Z_lt_le_dec (Qfloor x) 1) as [Hl|Hl]; [lia|].
  exfalso. rewrite Zle_Qle in Hl. pose proof (Qfloor_le x) as Hf.
  change (inject_Z 1) with 1%Q in Hl. lra.
Qed.

Lemma Qfloor_ge_1 (x : Q) : 0 < Qfloor x -> (1 <= x)%Q.
Proof.
  intro H. assert (Hl : 1 <= Qfloor x) by lia.
  rewrite Zle_Qle in Hl. pose proof (Qfloor_le x) as Hf.
  change (inject_Z 1) with 1%Q in Hl. lra.
Qed.

(** The result of [check_ban_time] is other than 0 exactly for a record
    that is permanent or has a whole second left, and then nothing is
    deleted. *)
Lemma check_ban_time_nonzero (now : Q) (u g : option string) (s : Store) :
  truthy u || truthy g = true ->
  exists v s',
    check_ban_time now u g s = (Return v, s')
    /\ (v <> 0 <->
        exists r, resolve_time u g s = Some r
                  /\ (duration r = -1 \/ (now + 1 <= deadline r)%Q))
    /\ (v <> 0 -> s' = s).
Proof.
  intro Hid. rewrite (check_ban_time_resolve now u g s Hid).
  destruct (resolve_time u g s) as [r|].
  - destruct (Z.eqb_spec (duration r) (-1)) as [Ed|Ed].
    + exists (-1), s. split; [reflexivity|]. split; [|reflexivity].
      split; [|lia]. intros _. exists r. auto.
    + destruct (Qltb (now - deadline r) 0) eqn:El.
      * apply Qltb_lt in El.
        exists (py_int (Qabs (now - deadline r))), s.
        split; [reflexivity|]. split; [|reflexivity].
        rewrite remaining_floor by lra.
        pose proof (Qfloor_nonneg (deadline r - now) ltac:(lra)) as Hn.
        split.
        -- intro Hv. exists r. split; [reflexivity|]. right.
           assert (H1 : (1 <= deadline r - now)%Q)
             by (apply Qfloor_ge_1; lia). lra.
        -- intros [r' [E [Hd|Hl]]]; inversion E; subst r';
             [contradiction|].
           assert (0 < Qfloor (deadline r - now))
             by (apply Qfloor_pos; lra). lia.
      * apply Qltb_ge in El. exists 0, (without r s).
        split; [reflexivity|]. split; [|congruence].
        split; [congruence|].
        intros [r' [E [Hd|Hl]]]; inversion E; subst r';
          [contradiction|]. exfalso. lra.
  - exists 0, s. split; [reflexivity|]. split; [|reflexivity].
    split; [congruence|]. intros [r [E _]]. discriminate.
Qed.

(** X7. With an identity given, [is_ban] returns a boolean: true exactly
    when the record that [check_ban_time] settles on (the tier of the pair,
    else the global ban of the user) is permanent or has at least one whole
    second left before ban_time + duration; and when it is true the table
    is as it was. *)
Theorem is_ban_true_iff (now : Q) (u g : option string) (s : Store) :
  truthy u || truthy g = true ->
  exists b s',
    is_ban now u g s = (Return b, s')
    /\ (b = true <->
        exists r, resolve_time u g s = Some r
                  /\ (duration r = -1 \/ (now + 1 <= deadline r)%Q))
    /\ (b = true -> s' = s).
Proof.
  intro Hid.
  destruct (check_ban_time_nonzero now u g s Hid) as [v [s1 [E [Hv Hs]]]].
  unfold is_ban, bind. rewrite E.
  destruct (Z.eqb_spec v 0) as [E0|E0]; simpl.
  - rewrite (unban_given u g s1 Hid).
    destruct (lookup (tier u g) s1) as [r|]; eexists false, _;
      (split; [reflexivity|]); (split; [|discriminate]);
      (split; [discriminate|]); intro H; apply Hv in H; contradiction.
  - exists true, s1. split; [reflexivity|]. split.
    + split; [intros _; apply Hv; exact E0|reflexivity].
    + intros _. apply Hs. exact E0.
Qed.

Lemma is_ban_true_iff_witness :
  truthy (Some "u1") || truthy (Some "g1") = true
  /\ is_ban (130#1) (Some "u1") (Some "g1") store_pair
     = (Return true, store_pair).
Proof.
  split; [reflexivity|].
  destruct (is_ban_true_iff (130#1) (Some "u1") (Some "g1") store_pair
              eq_refl) as [b [s' [E [Hb Hs]]]].
  assert (Ht : b = true).
  { apply Hb. exists row_u1_g1. split; [reflexivity|]. right.
    vm_compute. discriminate. }
  rewrite E, Ht, (Hs Ht). reflexivity.
Defined.

(** X8. When [is_ban] returns false on a well-formed table, the tier of
    (user_id, group_id) holds no record afterwards, so that [unban] on the
    same identity finds nothing; the table is as it was or short of the one
    timed record that the identity resolved. *)
Theorem is_ban_false_clears (now : Q) (u g : option string) (s s' : Store) :
  wf_store s -> is_ban now u g s = (Return false, s') ->
  lookup (tier u g) s' = None
  /\ unban u g s' = (Return false, s')
  /\ (s' = s
      \/ exists r, resolve_time u g s = Some r /\ duration r <> -1
                   /\ s' = without r s).
Proof.
  intros Hwf E.
  assert (Hid : truthy u || truthy g = true).
  { destruct (truthy u || truthy g) eqn:Hid; [reflexivity|].
    apply orb_false_iff in Hid. destruct Hid as [Hu Hg].
    unfold is_ban, check_ban_time, bind in E.
    rewrite (_get_data_unset u g s Hu Hg) in E. discriminate. }
  assert (Hnone : lookup (tier u g) s' = None).
  { pose proof (check_ban_time_wf now u g s Hwf) as Hwf1.
    unfold is_ban, bind in E.
    destruct (check_ban_time now u g s) as [[v|e] s1]; [|discriminate].
    simpl in Hwf1. destruct (negb (v =? 0)); [discriminate|].
    rewrite (unban_given u g s1 Hid) in E.
    destruct (lookup (tier u g) s1) as [r|] eqn:El; inversion E; subst s'.
    - apply (lookup_tier_without u g s1 r Hwf1 El).
    - exact El. }
  split; [exact Hnone|]. split.
  - rewrite (unban_given u g s' Hid), Hnone. reflexivity.
  - destruct (is_ban_store now u g s Hwf) as [H|[r [Hr [Hd H]]]];
      rewrite E in H.
    + left. exact H.
    + right. exists r. inversion H. auto.
Qed.

Lemma is_ban_false_clears_witness :
  wf_store store_pair
  /\ is_ban (3700#1) (Some "u1") (Some "g1") store_pair
     = (Return false, mkStore [] 2 true)
  /\ unban (Some "u1") (Some "g1") (mkStore [] 2 true)
     = (Return false, mkStore [] 2 true).
Proof.
  assert (E : is_ban (3700#1) (Some "u1") (Some "g1") store_pair
              = (Return false, mkStore [] 2 true)) by reflexivity.
  split; [exact wf_store_pair|]. split; [exact E|].
  apply (is_ban_false_clears _ _ _ _ _ wf_store_pair E).
Defined.

(** X9. Within the last second of a timed ban, the record of the tier being
    still short of ban_time + duration by less than a second,
    [check_ban_time] returns 0 and keeps the record, and [is_ban] returns
    false and deletes it. *)
Theorem is_ban_last_second (now : Q) (u g : option string) (s : Store)
    (r : BanConsole) :
  truthy u || truthy g = true -> lookup (tier u g) s = Some r ->
  duration r <> -1 -> (now < deadline r)%Q -> (deadline r < now + 1)%Q ->
  check_ban_time now u g s = (Return 0, s)
  /\ is_ban now u g s = (Return false, without r s).
Proof.
  intros Hid Hl Hd H1 H2.
  assert (E : check_ban_time now u g s = (Return 0, s)).
  { rewrite (check_ban_time_resolve now u g s Hid). unfold resolve_time.
    rewrite Hl. apply Z.eqb_neq in Hd. rewrite Hd.
    assert (Hlt : Qltb (now - deadline r) 0 = true) by (apply Qltb_lt; lra).
    rewrite Hlt, remaining_floor by lra.
    rewrite Qfloor_unit by lra. reflexivity. }
  split; [exact E|].
  unfold is_ban, bind. rewrite E. simpl.
  rewrite (unban_given u g s Hid), Hl. reflexivity.
Qed.

Lemma is_ban_last_second_witness :
  lookup (tier (Some "u1") (Some "g1")) store_pair = Some row_u1_g1
  /\ (319#2 < deadline row_u1_g1)%Q /\ (deadline row_u1_g1 < (319#2) + 1)%Q
  /\ is_ban (319#2) (Some "u1") (Some "g1") store_pair
     = (Return false, mkStore [] 2 true).
Proof.
  assert (H1 : (319#2 < deadline row_u1_g1)%Q) by reflexivity.
  assert (H2 : (deadline row_u1_g1 < (319#2) + 1)%Q) by reflexivity.
  split; [reflexivity|]. split; [exact H1|]. split; [exact H2|].
  apply (is_ban_last_second (319#2) (Some "u1") (Some "g1") store_pair
           row_u1_g1 eq_refl eq_refl); [discriminate|exact H1|exact H2].
Defined.

(** ** What [unban] removes *)

Lemma filter_all {A} (p : A -> bool) (l : list A) :
  (forall x, In x l -> p x = true) -> filter p l = l.
Proof.
  induction l as [|a l IH]; simpl; intro H; [reflexivity|].
  rewrite (H a) by (left; reflexivity). f_equal.
  apply IH. intros x Hx. apply H. right. exact Hx.
Qed.

(** X10. With an identity given, [unban] on a well-formed table returns a
    boolean and keeps exactly the rows that the filter of the tier rejects,
    in their order, without touching the counter of primary keys; it returns
    true exactly when some row satisfied the filter; and [get_ban] on the
    same identity returns None afterwards. *)
Theorem unban_scope (u g : option string) (s : Store) :
  wf_store s -> truthy u || truthy g = true ->
  exists b s',
    unban u g s = (Return b, s')
    /\ rows s' = filter (fun x => negb (matches (tier u g) x)) (rows s)
    /\ next_id s' = next_id s
    /\ (b = true <->
        exists x, In x (rows s) /\ matches (tier u g) x = true)
    /\ get_ban None u g s' = (Return None, s').
Proof.
  intros Hwf Hid. rewrite (unban_given u g s Hid).
  destruct (lookup (tier u g) s) as [r|] eqn:E.
  - pose proof (lookup_Some _ _ _ E) as [Hin Hm].
    exists true, (without r s). split; [reflexivity|].
    split; [|split; [reflexivity|split]].
    + simpl. unfold delete_rows. apply filter_ext_in. intros x Hx.
      destruct (Z.eqb_spec (id x) (id r)) as [Ei|Ei].
      * rewrite (NoDup_id_eq _ x r (wf_ids s Hwf) Hx Hin Ei), Hm.
        reflexivity.
      * destruct (matches (tier u g) x) eqn:Ex; [|reflexivity].
        exfalso. apply Ei. f_equal.
        pose proof (lookup_tier_unique u g s x Hwf Hx Ex) as Hl.
        congruence.
    + split; [intros _; exists r; auto|reflexivity].
    + simpl. rewrite (_get_data_given u g _ Hid).
      rewrite (lookup_tier_without u g s r Hwf E). reflexivity.
  - exists false, s. split; [reflexivity|].
    pose proof (proj1 (lookup_None _ _) E) as Hno.
    split; [|split; [reflexivity|split]].
    + symmetry. apply filter_all. intros x Hx. rewrite (Hno x Hx).
      reflexivity.
    + split; [discriminate|]. intros [x [Hx Hm]].
      rewrite (Hno x Hx) in Hm. discriminate.
    + simpl. rewrite (_get_data_given u g s Hid), E. reflexivity.
Qed.

Lemma unban_scope_witness :
  wf_store store_both /\ truthy (Some "u1") || truthy None = true
  /\ unban (Some "u1") None store_both
     = (Return true, mkStore [row_u1_g1] 3 true)
  /\ get_ban None (Some "u1") None (mkStore [row_u1_g1] 3 true)
     = (Return None, mkStore [row_u1_g1] 3 true).
Proof.
  split; [exact wf_store_both|]. split; [reflexivity|].
  destruct (unban_scope (Some "u1") None store_both wf_store_both eq_refl)
    as [b [s' [E [_ [_ [_ Hg]]]]]].
  assert (E' : unban (Some "u1") None store_both
               = (Return true, mkStore [row_u1_g1] 3 true)) by reflexivity.
  rewrite E' in E. inversion E. subst b s'.
  split; [exact E'|exact Hg].
Defined.

(** X11. [get_ban] with an id never looks at user_id and group_id and never
    raises, even with both unset: on a well-formed table it returns the row
    of that primary key if the table has one and None otherwise, and leaves
    the table as it is. *)
Theorem get_ban_by_id (i : Z) (u g : option string) (s : Store) :
  wf_store s ->
  exists o,
    get_ban (Some i) u g s = (Return o, s)
    /\ (forall r, o = Some r <-> In r (rows s) /\ id r = i).
Proof.
  intro Hwf. simpl. unfold safe_get_or_none_id.
  exists (find (fun r => id r =? i) (rows s)).
  split; [reflexivity|]. intro r. split.
  - intro E. apply find_some in E. destruct E as [Hin Hi].
    apply Z.eqb_eq in Hi. auto.
  - intros [Hin Hi].
    destruct (find (fun r0 => id r0 =? i) (rows s)) as [x|] eqn:E.
    + apply find_some in E. destruct E as [Hx Hxi].
      apply Z.eqb_eq in Hxi. f_equal.
      apply (NoDup_id_eq _ x r (wf_ids s Hwf) Hx Hin). congruence.
    + exfalso. pose proof (find_none _ _ E r Hin) as Hn. simpl in Hn.
      apply Z.eqb_neq in Hn. contradiction.
Qed.

Lemma get_ban_by_id_witness :
  wf_store store_both
  /\ get_ban (Some 2) None None store_both
     = (Return (Some row_u1_global), store_both).
Proof.
  split; [exact wf_store_both|].
  destruct (get_ban_by_id 2 None None store_both wf_store_both)
    as [o [E Ho]].
  rewrite E. f_equal. f_equal. apply Ho.
  split; [right; left; reflexivity|reflexivity].
Defined.

(** ** Expiry *)

(** X12. Expiry is final. On a well-formed table, when the record that an
    identity resolves is timed and has run out, and the user has no other
    global record, [check_ban_time] deletes it and returns 0; from then on,
    at any clock value, [check_ban_time] on the identity returns 0 and
    [is_ban] returns false, and neither changes the table again. *)
Theorem expiry_is_final (now1 now2 : Q) (u g : option string) (s : Store)
    (r : BanConsole) :
  wf_store s -> truthy u || truthy g = true ->
  resolve_time u g s = Some r -> duration r <> -1 ->
  (deadline r <= now1)%Q ->
  (forall x, In x (rows s) -> matches (tier u None) x = true -> x = r) ->
  check_ban_time now1 u g s = (Return 0, without r s)
  /\ check_ban_time now2 u g (without r s) = (Return 0, without r s)
  /\ is_ban now2 u g (without r s) = (Return false, without r s).
Proof.
  intros Hwf Hid Hr Hd Hexp Honly.
  assert (Hpair : lookup (tier u g) (without r s) = None).
  { unfold resolve_time in Hr.
    destruct (lookup (tier u g) s) as [x|] eqn:E.
    - inversion Hr. subst x. apply (lookup_tier_without u g s r Hwf E).
    - apply lookup_without_none. exact E. }
  assert (Hglob : lookup (tier u None) (without r s) = None).
  { apply lookup_None. intros x Hx. simpl in Hx.
    apply in_delete_rows in Hx. destruct Hx as [Hx Hi].
    destruct (matches (tier u None) x) eqn:Em; [|reflexivity].
    exfalso. apply Hi. rewrite (Honly x Hx Em). reflexivity. }
  assert (Hres : resolve_time u g (without r s) = None).
  { unfold resolve_time. rewrite Hpair, Hglob.
    destruct (truthy u); reflexivity. }
  assert (E2 : check_ban_time now2 u g (without r s)
               = (Return 0, without r s))
    by (rewrite (check_ban_time_resolve now2 u g _ Hid), Hres; reflexivity).
  split; [|split; [exact E2|]].
  - rewrite (check_ban_time_resolve now1 u g s Hid), Hr.
    apply Z.eqb_neq in Hd. rewrite Hd.
    assert (Hge : Qltb (now1 - deadline r) 0 = false)
      by (apply Qltb_ge; lra).
    rewrite Hge. reflexivity.
  - unfold is_ban, bind. rewrite E2. simpl.
    rewrite (unban_given u g _ Hid), Hpair. reflexivity.
Qed.

Lemma expiry_is_final_witness :
  wf_store store_pair
  /\ resolve_time (Some "u1") (Some "g1") store_pair = Some row_u1_g1
  /\ (deadline row_u1_g1 <= 160#1)%Q
  /\ check_ban_time (160#1) (Some "u1") (Some "g1") store_pair
     = (Return 0, mkStore [] 2 true)
  /\ is_ban (100#1) (Some "u1") (Some "g1") (mkStore [] 2 true)
     = (Return false, mkStore [] 2 true).
Proof.
  assert (Hexp : (deadline row_u1_g1 <= 160#1)%Q)
    by (vm_compute; discriminate).
  destruct (expiry_is_final (160#1) (100#1) (Some "u1") (Some "g1")
              store_pair row_u1_g1 wf_store_pair eq_refl eq_refl)
    as [H1 [_ H3]]; try (discriminate || exact Hexp).
  - intros x [<-|[]] H. discriminate H.
  - split; [exact wf_store_pair|]. split; [reflexivity|].
    split; [exact Hexp|]. split; [exact H1|exact H3].
Defined.

(** ** Tables the registry can reach *)

(** X13. Every table reached from the empty one by calls of [ban],
    [unban], [check_ban_time], [check_ban_level], [is_ban] and [get_ban],
    whether they return or raise, has distinct primary keys that start at 1
    and lie below the counter, and at most one row for each pair (user_id,
    group_id) whose user_id is not NULL. *)
Theorem reachable_invariant (nd : bool) (s : Store) :
  reachable nd s ->
  NoDup (map id (rows s))
  /\ (forall r, In r (rows s) -> 1 <= id r < next_id s)
  /\ (forall r1 r2, In r1 (rows s) -> In r2 (rows s) ->
                    user_id r1 <> None -> user_id r1 = user_id r2 ->
                    group_id r1 = group_id r2 -> r1 = r2)
  /\ unique_nulls_distinct s = nd.
Proof.
  intro H. pose proof (reachable_wf nd s H) as [Hi Hf Hk].
  split; [exact Hi|]. split; [|split; [exact Hk|]].
  - induction H as [|c s Hr IH].
    + intros r [].
    + pose proof (reachable_wf nd s Hr) as Hwf.
      assert (Hone : 1 <= next_id s).
      { clear - Hr. induction Hr as [|c s Hr IH]; [simpl; lia|].
        pose proof (reachable_wf nd s Hr) as Hwf.
        destruct (after_cases c s Hwf) as [base [Hb [->|[n [_ ->]]]]];
          [|simpl; lia].
        destruct Hb as [->|[r [_ [_ ->]]]]; simpl; lia. }
      pose proof (wf_fresh s Hwf) as Hfs. rewrite Forall_forall in Hfs.
      specialize (IH (wf_ids s Hwf) (wf_fresh s Hwf) (wf_key s Hwf)).
      intros r Hin. rewrite Forall_forall in Hf. specialize (Hf r Hin).
      split; [|exact Hf].
      destruct (after_cases c s Hwf) as [base [Hb Ha]].
      assert (Hsub : forall x, In x (rows base) -> In x (rows s)).
      { destruct Hb as [->|[x [_ [_ ->]]]]; [auto|].
        intros y Hy. simpl in Hy. apply in_delete_rows in Hy. tauto. }
      destruct Ha as [E|[n [Hn E]]]; rewrite E in Hin.
      * apply (IH r (Hsub r Hin)).
      * simpl in Hin. apply in_app_iff in Hin.
        destruct Hin as [Hin|[<-|[]]]; [apply (IH r (Hsub r Hin))|lia].
  - clear Hi Hf Hk. induction H as [|c s Hr IH]; [reflexivity|].
    pose proof (reachable_wf nd s Hr) as Hwf.
    destruct (after_cases c s Hwf) as [base [Hb [->|[n [_ ->]]]]];
      [|exact IH].
    destruct Hb as [->|[r [_ [_ ->]]]]; exact IH.
Qed.

Lemma reachable_invariant_witness :
  reachable true store_pair
  /\ (forall r, In r (rows store_pair) -> 1 <= id r < next_id store_pair).
Proof.
  assert (H : reachable true store_pair).
  { change store_pair
      with (after (CallBan (100#1) (Some "u1") (Some "g1") 5 (Some "spam")
                           60 (Some "admin")) (empty_store true)).
    apply reach_call. apply reach_empty. }
  split; [exact H|]. apply (reachable_invariant true store_pair H).
Defined.

(** ** The range of [check_ban_time] *)

Lemma check_ban_time_value (now : Q) (u g : option string) (s : Store) :
  truthy u || truthy g = true ->
  fst (check_ban_time now u g s) =
  Return match resolve_time u g s with
         | None => 0
         | Some r =>
             if duration r =? -1 then -1
             else if Qltb (now - deadline r) 0
                  then Qfloor (deadline r - now)
                  else 0
         end.
Proof.
  intro Hid. rewrite (check_ban_time_resolve now u g s Hid).
  destruct (resolve_time u g s) as [r|]; [|reflexivity].
  destruct (duration r =? -1); [reflexivity|].
  destruct (Qltb (now - deadline r) 0) eqn:El; [|reflexivity].
  apply Qltb_lt in El. cbn [fst]. rewrite remaining_floor by lra.
  reflexivity.
Qed.

(** X14. With an identity given, [check_ban_time] returns an integer that
    is at least -1, and -1 only for a permanent record; read at or after the
    ban_time of a timed record, where the subtraction of line 113 is exact,
    it is at most the duration (and 0 when the duration is negative); and
    on one table a later clock never gives a larger result than an earlier
    one. *)
Theorem check_ban_time_range (now now' : Q) (u g : option string)
    (s : Store) :
  truthy u || truthy g = true -> (now <= now')%Q ->
  exists v v',
    fst (check_ban_time now u g s) = Return v
    /\ fst (check_ban_time now' u g s) = Return v'
    /\ -1 <= v /\ v' <= v
    /\ (v = -1 <-> exists r, resolve_time u g s = Some r /\ duration r = -1)
    /\ (forall r, resolve_time u g s = Some r -> duration r <> -1 ->
                  (inject_Z (ban_time r) <= now)%Q ->
                  double_exact now (ban_time r + duration r) ->
                  v <= Z.max 0 (duration r)).
Proof.
  intros Hid Hle.
  rewrite (check_ban_time_value now u g s Hid).
  rewrite (check_ban_time_value now' u g s Hid).
  eexists _, _. split; [reflexivity|]. split; [reflexivity|].
  destruct (resolve_time u g s) as [r|].
  2:{ repeat split; try lia;
        try (intros [r [E _]]; discriminate);
        try (intros r E; discriminate). }
  destruct (Z.eqb_spec (duration r) (-1)) as [Ed|Ed].
  { repeat split; try lia;
      try (intros _; exists r; auto);
      try (intros r' E Hd; inversion E; subst; contradiction). }
  assert (Hperm : ~ exists r', Some r = Some r' /\ duration r' = -1).
  { intros [r' [E Hd]]. inversion E. subst. contradiction. }
  destruct (Qltb (now - deadline r) 0) eqn:El,
           (Qltb (now' - deadline r) 0) eqn:El'.
  - apply Qltb_lt in El, El'.
    pose proof (Qfloor_nonneg (deadline r - now) ltac:(lra)) as H0.
    assert (Hmono : Qfloor (deadline r - now') <= Qfloor (deadline r - now))
      by (apply Qfloor_resp_le; lra).
    repeat split; try lia; try (intro; exfalso; (lia || tauto)).
    intros r' E _ Hbt _. inversion E. subst r'.
    assert (Hd : Qfloor (deadline r - now) <= Qfloor (inject_Z (duration r))).
    { apply Qfloor_resp_le. unfold deadline. rewrite inject_Z_plus. lra. }
    rewrite Qfloor_Z in Hd. lia.
  - apply Qltb_lt in El.
    pose proof (Qfloor_nonneg (deadline r - now) ltac:(lra)) as H0.
    repeat split; try lia; try (intro; exfalso; (lia || tauto)).
    intros r' E _ Hbt _. inversion E. subst r'.
    assert (Hd : Qfloor (deadline r - now) <= Qfloor (inject_Z (duration r))).
    { apply Qfloor_resp_le. unfold deadline. rewrite inject_Z_plus. lra. }
    rewrite Qfloor_Z in Hd. lia.
  - exfalso. apply Qltb_ge in El. apply Qltb_lt in El'. lra.
  - repeat split; try lia; try (intro; exfalso; (lia || tauto)).
Qed.

Lemma check_ban_time_range_witness :
  truthy (Some "u1") || truthy (Some "g1") = true /\ (130#1 <= 317#2)%Q
  /\ fst (check_ban_time (130#1) (Some "u1") (Some "g1") store_pair)
     = Return 30
  /\ fst (check_ban_time (317#2) (Some "u1") (Some "g1") store_pair)
     = Return 1.
Proof.
  assert (Hle : (130#1 <= 317#2)%Q) by (vm_compute; discriminate).
  split; [reflexivity|]. split; [exact Hle|].
  destruct (check_ban_time_range (130#1) (317#2) (Some "u1") (Some "g1")
              store_pair eq_refl Hle) as [v [v' [E [E' _]]]].
  split; reflexivity.
Defined.
